(** * set-refresh-rate.py: a shallow embedding and its verified properties

    The script talks to Mutter's [org.gnome.Mutter.DisplayConfig] service:
    it fetches the current state, flattens the per-connector mode
    catalogues, picks a target mode and submits a rebuilt logical-monitor
    configuration.

    The embedding follows the Python source function by function.  Values
    that come out of [GLib.Variant.unpack ()] are Python tuples, lists,
    dicts and scalars; the D-Bus signature fixes their shape, so the main
    development works on records, and a dynamically typed copy of
    [parse_modes] covers inputs that do not have that shape.  Refresh rates
    and scales are IEEE binary64 numbers, exactly like Python's [float]. *)

From Stdlib Require Import ZArith List String Bool Lia.
From Stdlib Require Import Floats.PrimFloat.
From Stdlib Require Import Floats.SpecFloat Floats.FloatOps Floats.FloatAxioms.
From stdpp Require Import base list strings option.

Local Open Scope string_scope.
Local Open Scope list_scope.
Set Warnings "-register-all,-inexact-float".

(** ** Python values *)

(** What [unpack ()] can produce.  A dict keeps its insertion order, so
    it is an association list; the keys of an [a{sv}] map are strings.
    A [str] is held as the bytes of its UTF-8 encoding (D-Bus strings are
    valid UTF-8), so one character may take several bytes. *)
Inductive pyval :=
| PNone
| PBool (b : bool)
| PInt (z : Z)
| PFloat (f : float)
| PStr (s : string)
| PTuple (items : list pyval)
| PList (items : list pyval)
| PDict (items : list (string * pyval)).

Definition pydict := list (string * pyval).

(** [d.get (k, default)] *)
Fixpoint dict_get (d : pydict) (k : string) (default : pyval) : pyval :=
  match d with
  | [] => default
  | (k', v) :: rest => if String.eqb k' k then v else dict_get rest k default
  end.

(** Python truth value testing, as used by [if m['is_current']]. *)
Definition truthy (v : pyval) : bool :=
  match v with
  | PNone => false
  | PBool b => b
  | PInt z => negb (Z.eqb z 0)
  | PFloat f => negb (PrimFloat.eqb f 0%float)
  | PStr s => negb (String.eqb s "")
  | PTuple items => negb (Nat.eqb (length items) 0)
  | PList items => negb (Nat.eqb (length items) 0)
  | PDict items => negb (Nat.eqb (length items) 0)
  end.

(** ** Exceptions and the error monad *)

Inductive exn :=
| ValueError
| TypeError
| AttributeError
| UnboundLocalError (var : string)
| GLibError (msg : string).

Inductive result (A : Type) :=
| Ok (a : A)
| Raise (e : exn).
Arguments Ok {A} a.
Arguments Raise {A} e.

#[global] Instance result_ret : MRet result := fun _ a => Ok a.
#[global] Instance result_bind : MBind result := fun _ _ f m =>
  match m with
  | Ok a => f a
  | Raise e => Raise e
  end.
#[global] Instance result_fmap : FMap result := fun _ _ f m =>
  match m with
  | Ok a => Ok (f a)
  | Raise e => Raise e
  end.

(** ** The fetched state, as records

    [GetCurrentState] answers [(u a((ssss)a(siiddada{sv})a{sv})
    a(iiduba(ssss)a{sv}) a{sv})]. *)

Record ConnectorInfo := {
  ci_connector : string;
  ci_vendor : string;
  ci_product : string;
  ci_serial_num : string
}.

Record ModeInfo := {
  mi_mode_id : string;
  mi_width : Z;
  mi_height : Z;
  mi_refresh : float;
  mi_scale : float;
  mi_scales : list float;
  mi_mode_props : pydict
}.

Record Monitor := {
  mon_connector_info : ConnectorInfo;
  mon_mode_list : list ModeInfo;
  mon_props : pydict
}.

Record LogicalMonitor := {
  lm_x : Z;
  lm_y : Z;
  lm_scale : float;
  lm_transform : Z;
  lm_is_primary : bool;
  lm_monitor_configs : list ConnectorInfo;
  lm_props : pydict
}.

Record ConfigState := {
  cs_serial : Z;
  cs_monitors : list Monitor;
  cs_logical_monitors : list LogicalMonitor;
  cs_properties : pydict
}.

(** The dict that [parse_modes] appends for every mode.  [is_current]
    and [is_preferred] hold whatever the property map holds (a variant),
    or [False] when the key is absent. *)
Record MonitorMode := {
  connector : string;
  mode_id : string;
  width : Z;
  height : Z;
  refresh : float;
  scale : float;
  scales : list float;
  is_current : pyval;
  is_preferred : pyval;
  props : pydict
}.

(** ** [parse_modes] on well-shaped input *)

Definition mode_entry (connector : string) (mode : ModeInfo) : MonitorMode :=
  let mode_props := mi_mode_props mode in
  {| connector := connector;
     mode_id := mi_mode_id mode;
     width := mi_width mode;
     height := mi_height mode;
     refresh := mi_refresh mode;
     scale := mi_scale mode;
     scales := mi_scales mode;
     is_current := dict_get mode_props "is-current" (PBool false);
     is_preferred := dict_get mode_props "is-preferred" (PBool false);
     props := mode_props |}.

(** The inner loop [for mode in mode_list: ... modes.append (...)]. *)
Fixpoint parse_mode_list (connector : string) (mode_list : list ModeInfo)
    (modes : list MonitorMode) : list MonitorMode :=
  match mode_list with
  | [] => modes
  | mode :: rest =>
      parse_mode_list connector rest (modes ++ [mode_entry connector mode])
  end.

(** The outer loop [for monitor in monitors]. *)
Fixpoint parse_monitors (monitors : list Monitor) (modes : list MonitorMode)
    : list MonitorMode :=
  match monitors with
  | [] => modes
  | monitor :: rest =>
      let connector := ci_connector (mon_connector_info monitor) in
      parse_monitors rest (parse_mode_list connector (mon_mode_list monitor) modes)
  end.

Definition parse_modes (monitors : list Monitor) : list MonitorMode :=
  parse_monitors monitors [].

(** ** [parse_modes] on arbitrary Python values

    The same function, without assuming the shape of its argument:
    tuple unpacking and [.get] are the places where it can raise. *)
Module Dyn.

(** A UTF-8 continuation byte, [10xxxxxx]. *)
Definition is_continuation (c : Ascii.ascii) : bool :=
  let n := Ascii.nat_of_ascii c in
  Nat.leb 128 n && Nat.ltb n 192.

Definition starts_with_continuation (chunk : string) : bool :=
  match chunk with
  | String c _ => is_continuation c
  | EmptyString => false
  end.

(** The characters of a [str], each as a one-character string: a byte
    together with the continuation bytes that follow it. *)
Fixpoint characters (bytes : list Ascii.ascii) : list string :=
  match bytes with
  | [] => []
  | b :: rest =>
      match characters rest with
      | chunk :: chunks =>
          if starts_with_continuation chunk then String b chunk :: chunks
          else String b "" :: chunk :: chunks
      | [] => [String b ""]
      end
  end.

(** Iterating a value, as [for] and tuple unpacking do.  A [str] yields
    its characters, a dict its keys. *)
Definition py_iter (v : pyval) : result (list pyval) :=
  match v with
  | PTuple items | PList items => Ok items
  | PStr s => Ok (map PStr (characters (list_ascii_of_string s)))
  | PDict items => Ok (map (fun kv => PStr (fst kv)) items)
  | PNone | PBool _ | PInt _ | PFloat _ => Raise TypeError
  end.

(** [a, b, c = v] *)
Definition unpack3 (v : pyval) : result (pyval * pyval * pyval) :=
  items ← py_iter v;
  match items with
  | [a; b; c] => Ok (a, b, c)
  | _ => Raise ValueError
  end.

(** [a, b, c, d = v] *)
Definition unpack4 (v : pyval) : result (pyval * pyval * pyval * pyval) :=
  items ← py_iter v;
  match items with
  | [a; b; c; d] => Ok (a, b, c, d)
  | _ => Raise ValueError
  end.

(** [a, b, c, d, e, f, g = v] *)
Definition unpack7 (v : pyval)
    : result (pyval * pyval * pyval * pyval * pyval * pyval * pyval) :=
  items ← py_iter v;
  match items with
  | [a; b; c; d; e; f; g] => Ok (a, b, c, d, e, f, g)
  | _ => Raise ValueError
  end.

(** [v.get (k, default)]: only a dict has the method. *)
Definition py_get (v : pyval) (k : string) (default : pyval) : result pyval :=
  match v with
  | PDict items => Ok (dict_get items k default)
  | _ => Raise AttributeError
  end.

(** The appended dict, every field still an unchecked Python value. *)
Record mode_dict := {
  d_connector : pyval;
  d_mode_id : pyval;
  d_width : pyval;
  d_height : pyval;
  d_refresh : pyval;
  d_scale : pyval;
  d_scales : pyval;
  d_is_current : pyval;
  d_is_preferred : pyval;
  d_props : pyval
}.

Definition parse_mode (connector mode : pyval) : result mode_dict :=
  '(mode_id, width, height, refresh, scale, scales, mode_props) ← unpack7 mode;
  is_current ← py_get mode_props "is-current" (PBool false);
  is_preferred ← py_get mode_props "is-preferred" (PBool false);
  Ok {| d_connector := connector; d_mode_id := mode_id; d_width := width;
        d_height := height; d_refresh := refresh; d_scale := scale;
        d_scales := scales; d_is_current := is_current;
        d_is_preferred := is_preferred; d_props := mode_props |}.

Fixpoint parse_mode_list (connector : pyval) (mode_list : list pyval)
    (modes : list mode_dict) : result (list mode_dict) :=
  match mode_list with
  | [] => Ok modes
  | mode :: rest =>
      d ← parse_mode connector mode;
      parse_mode_list connector rest (modes ++ [d])
  end.

Fixpoint parse_monitors (monitors : list pyval) (modes : list mode_dict)
    : result (list mode_dict) :=
  match monitors with
  | [] => Ok modes
  | monitor :: rest =>
      '(connector_info, mode_list, props) ← unpack3 monitor;
      '(connector, vendor, product, serial_num) ← unpack4 connector_info;
      items ← py_iter mode_list;
      modes' ← parse_mode_list connector items modes;
      parse_monitors rest modes'
  end.

Definition parse_modes (monitors : pyval) : result (list mode_dict) :=
  items ← py_iter monitors;
  parse_monitors items [].

(** How a well-shaped state looks as a Python value. *)
Definition of_connector_info (ci : ConnectorInfo) : pyval :=
  PTuple [PStr (ci_connector ci); PStr (ci_vendor ci);
          PStr (ci_product ci); PStr (ci_serial_num ci)].

Definition of_mode_info (m : ModeInfo) : pyval :=
  PTuple [PStr (mi_mode_id m); PInt (mi_width m); PInt (mi_height m);
          PFloat (mi_refresh m); PFloat (mi_scale m);
          PList (map PFloat (mi_scales m)); PDict (mi_mode_props m)].

Definition of_monitor (m : Monitor) : pyval :=
  PTuple [of_connector_info (mon_connector_info m);
          PList (map of_mode_info (mon_mode_list m));
          PDict (mon_props m)].

Definition of_monitors (ms : list Monitor) : pyval :=
  PList (map of_monitor ms).

Definition of_mode (m : MonitorMode) : mode_dict :=
  {| d_connector := PStr (connector m); d_mode_id := PStr (mode_id m);
     d_width := PInt (width m); d_height := PInt (height m);
     d_refresh := PFloat (refresh m); d_scale := PFloat (scale m);
     d_scales := PList (map PFloat (scales m));
     d_is_current := is_current m; d_is_preferred := is_preferred m;
     d_props := PDict (props m) |}.

End Dyn.

(** ** The service, the console and the effect monad *)

(** One entry of a submitted logical monitor: [(connector, mode_id, {})]
    under the signature [(ssa{sv})]. *)
Record MonitorConfig := {
  mc_connector : string;
  mc_mode_id : string;
  mc_properties : pydict
}.

(** A submitted logical monitor, [(iiduba(ssa{sv}))]: six components. *)
Record NewLogicalMonitor := {
  nl_x : Z;
  nl_y : Z;
  nl_scale : float;
  nl_transform : Z;
  nl_is_primary : bool;
  nl_monitor_configs : list MonitorConfig
}.

(** The compositor's side of the conversation.  [svc_proxy] is [Some msg]
    when [Gio.DBusProxy.new_for_bus_sync] raises, [svc_get_current_state]
    is the reply to [GetCurrentState] or its fault, and [svc_apply] is the
    fault, if any, with which [ApplyMonitorsConfig] answers. *)
Record Service := {
  svc_proxy : option string;
  svc_get_current_state : string + ConfigState;
  svc_apply : Z -> Z -> list NewLogicalMonitor -> pydict -> option string
}.

(** The texts the script prints, one constructor per [print] call; the
    formatted numbers are kept as values. *)
Inductive message :=
| MsgUsage
| MsgAvailableModes
| MsgModeLine (connector : string) (width height : Z) (refresh : float) (marker : string)
| MsgCurrentMode (width height : Z) (refresh : float)
| MsgNoDetect
| MsgNoCurrentMode
| MsgModeNotFound (width height : Z) (target_refresh : float)
| MsgAvailableRates
| MsgRate (refresh : float)
| MsgAlreadyAt (target_refresh : float)
| MsgRefreshSet (refresh : float)
| MsgApplyError (e : exn)
| MsgInvalidArgument (arg : string).

Inductive event :=
| EvPrint (m : message)
| EvGetCurrentState
| EvApplyMonitorsConfig (serial method : Z)
    (logical_monitors : list NewLogicalMonitor) (properties : pydict).

(** A computation leaves a trace of events and returns or raises. *)
Record IO (A : Type) := mkIO {
  io_trace : list event;
  io_result : result A
}.
Arguments mkIO {A} io_trace io_result.
Arguments io_trace {A} _.
Arguments io_result {A} _.

#[global] Instance IO_ret : MRet IO := fun _ a => mkIO [] (Ok a).
#[global] Instance IO_bind : MBind IO := fun _ _ f m =>
  match io_result m with
  | Ok a => mkIO (io_trace m ++ io_trace (f a)) (io_result (f a))
  | Raise e => mkIO (io_trace m) (Raise e)
  end.

Definition emit (ev : event) : IO unit := mkIO [ev] (Ok tt).
Definition print (m : message) : IO unit := emit (EvPrint m).
Definition raise {A} (e : exn) : IO A := mkIO [] (Raise e).
Definition lift {A} (r : result A) : IO A := mkIO [] r.

(** [try: body except <handled>: handler]; [handler e = None] means the
    [except] clause does not match [e], which then propagates. *)
Definition try_except {A} (body : IO A) (handler : exn -> option (IO A)) : IO A :=
  match io_result body with
  | Ok a => body
  | Raise e =>
      match handler e with
      | Some h => mkIO (io_trace body ++ io_trace h) (io_result h)
      | None => body
      end
  end.

(** [get_display_config_proxy] *)
Definition get_display_config_proxy (svc : Service) : IO unit :=
  match svc_proxy svc with
  | Some msg => raise (GLibError msg)
  | None => mret tt
  end.

(** [get_current_state] *)
Definition get_current_state (svc : Service) : IO ConfigState :=
  _ ← emit EvGetCurrentState;
  match svc_get_current_state svc with
  | inl msg => raise (GLibError msg)
  | inr st => mret st
  end.

(** [apply_config], with its default [properties={}] and [method = 1]. *)
Definition apply_config (svc : Service) (serial : Z)
    (logical_monitors : list NewLogicalMonitor) : IO unit :=
  let properties : pydict := [] in
  let method := 1%Z in
  _ ← emit (EvApplyMonitorsConfig serial method logical_monitors properties);
  match svc_apply svc serial method logical_monitors properties with
  | Some msg => raise (GLibError msg)
  | None => mret tt
  end.

(** ** [set_refresh_rate] *)

(** [for m in modes: if m['is_current']: current = m; break] *)
Fixpoint find_current (modes : list MonitorMode) : option MonitorMode :=
  match modes with
  | [] => None
  | m :: rest => if truthy (is_current m) then Some m else find_current rest
  end.

(** The condition of the target loop (lines 145-147). *)
Definition target_matches (current : MonitorMode) (target_refresh : float)
    (m : MonitorMode) : bool :=
  Z.eqb (width m) (width current) &&
  Z.eqb (height m) (height current) &&
  PrimFloat.ltb (PrimFloat.abs (PrimFloat.sub (refresh m) target_refresh)) 1%float.

(** [for m in modes: if <condition>: target = m; break] *)
Fixpoint select_target (modes : list MonitorMode) (current : MonitorMode)
    (target_refresh : float) : option MonitorMode :=
  match modes with
  | [] => None
  | m :: rest =>
      if target_matches current target_refresh m then Some m
      else select_target rest current target_refresh
  end.

(** The hint printed when no target exists: one line per mode at the
    current resolution. *)
Fixpoint print_available_rates (modes : list MonitorMode) (current : MonitorMode)
    : IO unit :=
  match modes with
  | [] => mret tt
  | m :: rest =>
      _ ← (if Z.eqb (width m) (width current) && Z.eqb (height m) (height current)
           then print (MsgRate (refresh m)) else mret tt);
      print_available_rates rest current
  end.

(** The [else] branch of the rebuild: the loop that looks the connector's
    current mode up.  [mode_str] is the function-local variable; it keeps
    its previous binding ([None] when unbound) if no mode qualifies. *)
Fixpoint lookup_current_mode (modes : list MonitorMode) (connector0 : string)
    (mode_str : option string) : option string :=
  match modes with
  | [] => mode_str
  | m :: rest =>
      if String.eqb (connector m) connector0 && truthy (is_current m)
      then Some (mode_id m)
      else lookup_current_mode rest connector0 mode_str
  end.

(** The assignment to [mode_str] for one [mc] (lines 175-182). *)
Definition assign_mode_str (modes : list MonitorMode) (target : MonitorMode)
    (mc : ConnectorInfo) (mode_str : option string) : option string :=
  if String.eqb (ci_connector mc) (connector target)
  then Some (mode_id target)
  else lookup_current_mode modes (ci_connector mc) mode_str.

(** Reading [mode_str] on line 184. *)
Definition read_mode_str (mode_str : option string) : result string :=
  match mode_str with
  | Some s => Ok s
  | None => Raise (UnboundLocalError "mode_str")
  end.

(** [for mc in monitor_configs], threading [mode_str] and the list being
    appended to. *)
Fixpoint build_monitor_configs (modes : list MonitorMode) (target : MonitorMode)
    (monitor_configs : list ConnectorInfo) (mode_str : option string)
    (new_monitor_configs : list MonitorConfig)
    : result (option string * list MonitorConfig) :=
  match monitor_configs with
  | [] => Ok (mode_str, new_monitor_configs)
  | mc :: rest =>
      let mode_str := assign_mode_str modes target mc mode_str in
      s ← read_mode_str mode_str;
      build_monitor_configs modes target rest mode_str
        (new_monitor_configs ++
           [{| mc_connector := ci_connector mc; mc_mode_id := s;
               mc_properties := [] |}])
  end.

(** [for lm in logical_monitors] *)
Fixpoint build_logical_monitors (modes : list MonitorMode) (target : MonitorMode)
    (logical_monitors : list LogicalMonitor) (mode_str : option string)
    (new_logical_monitors : list NewLogicalMonitor)
    : result (option string * list NewLogicalMonitor) :=
  match logical_monitors with
  | [] => Ok (mode_str, new_logical_monitors)
  | lm :: rest =>
      '(mode_str, new_monitor_configs) ←
        build_monitor_configs modes target (lm_monitor_configs lm) mode_str [];
      build_logical_monitors modes target rest mode_str
        (new_logical_monitors ++
           [{| nl_x := lm_x lm; nl_y := lm_y lm; nl_scale := lm_scale lm;
               nl_transform := lm_transform lm;
               nl_is_primary := lm_is_primary lm;
               nl_monitor_configs := new_monitor_configs |}])
  end.

(** Lines 165-186: [mode_str] starts unbound. *)
Definition build_new_configuration (modes : list MonitorMode)
    (target : MonitorMode) (logical_monitors : list LogicalMonitor)
    : result (list NewLogicalMonitor) :=
  '(_, new_logical_monitors) ←
    build_logical_monitors modes target logical_monitors None [];
  Ok new_logical_monitors.

Definition set_refresh_rate (svc : Service) (target_refresh : float) : IO bool :=
  _ ← get_display_config_proxy svc;
  st ← get_current_state svc;
  let modes := parse_modes (cs_monitors st) in
  match find_current modes with
  | None =>
      _ ← print MsgNoCurrentMode;
      mret false
  | Some current =>
      match select_target modes current target_refresh with
      | None =>
          _ ← print (MsgModeNotFound (width current) (height current) target_refresh);
          _ ← print MsgAvailableRates;
          _ ← print_available_rates modes current;
          mret false
      | Some target =>
          if truthy (is_current target) then
            _ ← print (MsgAlreadyAt target_refresh);
            mret true
          else
            new_logical_monitors ←
              lift (build_new_configuration modes target (cs_logical_monitors st));
            try_except
              (_ ← apply_config svc (cs_serial st) new_logical_monitors;
               _ ← print (MsgRefreshSet (refresh target));
               mret true)
              (fun e => Some (_ ← print (MsgApplyError e); mret false))
      end
  end.

(** ** [list_modes], [get_current_mode] and [main] *)

(** The loop of [list_modes]; [current_mode] ends up as the last mode
    flagged current. *)
Fixpoint print_mode_lines (modes : list MonitorMode)
    (current_mode : option MonitorMode) : IO (option MonitorMode) :=
  match modes with
  | [] => mret current_mode
  | m :: rest =>
      let marker :=
        if truthy (is_current m) then " (current)"
        else if truthy (is_preferred m) then " (preferred)"
        else "" in
      let current_mode :=
        if truthy (is_current m) then Some m else current_mode in
      _ ← print (MsgModeLine (connector m) (width m) (height m) (refresh m) marker);
      print_mode_lines rest current_mode
  end.

Definition list_modes (svc : Service) : IO (option MonitorMode) :=
  _ ← get_display_config_proxy svc;
  st ← get_current_state svc;
  let modes := parse_modes (cs_monitors st) in
  _ ← print MsgAvailableModes;
  print_mode_lines modes None.

Definition get_current_mode (svc : Service) : IO (option MonitorMode) :=
  _ ← get_display_config_proxy svc;
  st ← get_current_state svc;
  let modes := parse_modes (cs_monitors st) in
  mret (find_current modes).

(** How the interpreter ends: [sys.exit (main ())] with the returned
    code, or a traceback for an exception nobody caught. *)
Inductive exit_status :=
| Exited (code : Z)
| Traceback (e : exn).

Definition exit_code (s : exit_status) : Z :=
  match s with
  | Exited code => code
  | Traceback _ => 1%Z
  end.

Section Main.

(** The builtin [float (arg)]; [None] stands for its [ValueError]. *)
Variable float_of_string : string -> option float.

Definition py_float (arg : string) : IO float :=
  match float_of_string arg with
  | Some f => mret f
  | None => raise ValueError
  end.

(** [args] is [sys.argv[1:]]. *)
Definition main (svc : Service) (args : list string) : IO Z :=
  match args with
  | [] =>
      _ ← print MsgUsage;
      mret 1%Z
  | arg :: _ =>
      if String.eqb arg "--list" then
        _ ← list_modes svc;
        mret 0%Z
      else if String.eqb arg "--current" then
        mode ← get_current_mode svc;
        _ ← (match mode with
             | Some m => print (MsgCurrentMode (width m) (height m) (refresh m))
             | None => print MsgNoDetect
             end);
        mret 0%Z
      else
        try_except
          (target_refresh ← py_float arg;
           ok ← set_refresh_rate svc target_refresh;
           if ok : bool then mret 0%Z else mret 1%Z)
          (fun e =>
             match e with
             | ValueError =>
                 Some (_ ← print (MsgInvalidArgument arg);
                       _ ← print MsgUsage;
                       mret 1%Z)
             | _ => None
             end)
  end.

Definition run_process (svc : Service) (args : list string)
    : list event * exit_status :=
  let r := main svc args in
  (io_trace r,
   match io_result r with
   | Ok code => Exited code
   | Raise e => Traceback e
   end).

End Main.

(** ** Reading a trace *)

(** The configurations handed to [ApplyMonitorsConfig], in order. *)
Fixpoint apply_calls (t : list event) : list (list NewLogicalMonitor) :=
  match t with
  | [] => []
  | EvApplyMonitorsConfig _ _ logical_monitors _ :: rest =>
      logical_monitors :: apply_calls rest
  | _ :: rest => apply_calls rest
  end.

(** The connectors a logical-monitor list refers to, in processing order,
    and the entries of a rebuilt list, in the same order. *)
Definition referenced (logical_monitors : list LogicalMonitor) : list ConnectorInfo :=
  flat_map lm_monitor_configs logical_monitors.

Definition entries (new_logical_monitors : list NewLogicalMonitor) : list MonitorConfig :=
  flat_map nl_monitor_configs new_logical_monitors.

(** The first mode of a connector that is flagged current: what the loop
    of lines 179-182 looks for. *)
Definition current_mode_of (modes : list MonitorMode) (connector0 : string)
    : option MonitorMode :=
  List.find (fun m => String.eqb (connector m) connector0 && truthy (is_current m))
            modes.

(** A logical monitor with another property map. *)
Definition with_lm_props (p : pydict) (lm : LogicalMonitor) : LogicalMonitor :=
  {| lm_x := lm_x lm; lm_y := lm_y lm; lm_scale := lm_scale lm;
     lm_transform := lm_transform lm; lm_is_primary := lm_is_primary lm;
     lm_monitor_configs := lm_monitor_configs lm; lm_props := p |}.

(** A monitor with another property map. *)
Definition with_mon_props (p : pydict) (monitor : Monitor) : Monitor :=
  {| mon_connector_info := mon_connector_info monitor;
     mon_mode_list := mon_mode_list monitor; mon_props := p |}.

(** What the rebuild is meant to write for a referenced connector [mc]:
    the target's mode for the target's connector, and for any other
    connector the mode that [modes] flags current for it. *)
Definition entry_for (modes : list MonitorMode) (target : MonitorMode)
    (mc : ConnectorInfo) (e : MonitorConfig) : Prop :=
  mc_connector e = ci_connector mc /\
  (ci_connector mc = connector target -> mc_mode_id e = mode_id target) /\
  (ci_connector mc <> connector target ->
   exists m, current_mode_of modes (ci_connector mc) = Some m /\
             mc_mode_id e = mode_id m).

(** The tuples of lines 168 and 186 as Python values. *)
Definition tuple_of_connector_info (ci : ConnectorInfo) : pyval :=
  PTuple [PStr (ci_connector ci); PStr (ci_vendor ci);
          PStr (ci_product ci); PStr (ci_serial_num ci)].

Definition tuple_of_logical_monitor (lm : LogicalMonitor) : pyval :=
  PTuple [PInt (lm_x lm); PInt (lm_y lm); PFloat (lm_scale lm);
          PInt (lm_transform lm); PBool (lm_is_primary lm);
          PList (map tuple_of_connector_info (lm_monitor_configs lm));
          PDict (lm_props lm)].

Definition tuple_of_monitor_config (mc : MonitorConfig) : pyval :=
  PTuple [PStr (mc_connector mc); PStr (mc_mode_id mc); PDict (mc_properties mc)].

Definition tuple_of_new_logical_monitor (nl : NewLogicalMonitor) : pyval :=
  PTuple [PInt (nl_x nl); PInt (nl_y nl); PFloat (nl_scale nl);
          PInt (nl_transform nl); PBool (nl_is_primary nl);
          PList (map tuple_of_monitor_config (nl_monitor_configs nl))].

Definition tuple_length (v : pyval) : option nat :=
  match v with
  | PTuple items => Some (length items)
  | _ => None
  end.

(** The calls made to the service, in order: a trace without its
    [print]s. *)
Definition is_print (ev : event) : bool :=
  match ev with
  | EvPrint _ => true
  | _ => false
  end.

Definition service_calls (t : list event) : list event :=
  List.filter (fun ev => negb (is_print ev)) t.

(** The line [list_modes] prints for a mode (lines 100-107). *)
Definition mode_line (m : MonitorMode) : event :=
  EvPrint (MsgModeLine (connector m) (width m) (height m) (refresh m)
             (if truthy (is_current m) then " (current)"
              else if truthy (is_preferred m) then " (preferred)"
              else "")).

(** The test of line 155: a mode at the current resolution. *)
Definition same_resolution (current m : MonitorMode) : bool :=
  Z.eqb (width m) (width current) && Z.eqb (height m) (height current).

(** Where a submitted mode_id can come from: the target, or a parsed
    mode flagged current. *)
Definition mode_id_provenance (modes : list MonitorMode) (target : MonitorMode)
    (s : string) : Prop :=
  exists m, In m modes /\ mode_id m = s /\
            (m = target \/ truthy (is_current m) = true).

(** ** The specification's wording of target selection

    Section 4.1 of the specification describes SelectTarget with an
    inclusive 1.0 Hz boundary; this is that description, to be compared
    with [select_target]. *)
Definition spec_target_matches (current : MonitorMode) (requested_refresh : float)
    (m : MonitorMode) : bool :=
  Z.eqb (width m) (width current) &&
  Z.eqb (height m) (height current) &&
  PrimFloat.leb (PrimFloat.abs (PrimFloat.sub (refresh m) requested_refresh)) 1%float.

Definition spec_select_target (modes : list MonitorMode) (current : MonitorMode)
    (requested_refresh : float) : option MonitorMode :=
  List.find (spec_target_matches current requested_refresh) modes.

(** ** Sample states *)
Module Samples.

Definition dp1 : ConnectorInfo :=
  {| ci_connector := "DP-1"; ci_vendor := "AUO"; ci_product := "0x1234";
     ci_serial_num := "0x0001" |}.

Definition hdmi1 : ConnectorInfo :=
  {| ci_connector := "HDMI-1"; ci_vendor := "DEL"; ci_product := "U2720Q";
     ci_serial_num := "0x0002" |}.

Definition mode_info (id : string) (w h : Z) (r : float) (mode_props : pydict)
    : ModeInfo :=
  {| mi_mode_id := id; mi_width := w; mi_height := h; mi_refresh := r;
     mi_scale := 1%float; mi_scales := [1%float; 2%float];
     mi_mode_props := mode_props |}.

Definition current_props : pydict :=
  [("is-current", PBool true); ("is-preferred", PBool true)].

Definition logical (x : Z) (primary : bool) (cis : list ConnectorInfo)
    : LogicalMonitor :=
  {| lm_x := x; lm_y := 0; lm_scale := 1%float; lm_transform := 0;
     lm_is_primary := primary; lm_monitor_configs := cis;
     lm_props := [("layout-mode", PInt 1)] |}.

Definition state (monitors : list Monitor) (lms : list LogicalMonitor)
    : ConfigState :=
  {| cs_serial := 7; cs_monitors := monitors; cs_logical_monitors := lms;
     cs_properties := [] |}.

(** Scenario 1 of the specification: DP-1 at 1920x1080, 60 Hz current,
    240 Hz available. *)
Definition dp1_monitor : Monitor :=
  {| mon_connector_info := dp1;
     mon_mode_list :=
       [mode_info "1920x1080@60" 1920 1080 60%float current_props;
        mode_info "1920x1080@240" 1920 1080 240%float []];
     mon_props := [("display-name", PStr "Built-in display")] |}.

Definition one_display : ConfigState :=
  state [dp1_monitor] [logical 0 true [dp1]].

(** A second connector none of whose modes is flagged current. *)
Definition hdmi1_monitor : Monitor :=
  {| mon_connector_info := hdmi1;
     mon_mode_list := [mode_info "3840x2160@60" 3840 2160 60%float []];
     mon_props := [] |}.

Definition two_displays : ConfigState :=
  state [dp1_monitor; hdmi1_monitor]
        [logical 0 true [dp1]; logical 1920 false [hdmi1]].

Definition two_displays_swapped : ConfigState :=
  state [dp1_monitor; hdmi1_monitor]
        [logical 0 false [hdmi1]; logical 3840 true [dp1]].

(** Two connectors without a current mode, referenced before DP-1. *)
Definition hdmi2 : ConnectorInfo :=
  {| ci_connector := "HDMI-2"; ci_vendor := "DEL"; ci_product := "U2720Q";
     ci_serial_num := "0x0003" |}.

Definition hdmi2_monitor : Monitor :=
  {| mon_connector_info := hdmi2;
     mon_mode_list := [mode_info "3840x2160@60" 3840 2160 60%float []];
     mon_props := [] |}.

Definition three_displays : ConfigState :=
  state [dp1_monitor; hdmi1_monitor; hdmi2_monitor]
        [logical 0 false [hdmi1]; logical 3840 false [hdmi2];
         logical 7680 true [dp1]].

(** A second connector that does have a current mode. *)
Definition hdmi1_active : Monitor :=
  {| mon_connector_info := hdmi1;
     mon_mode_list :=
       [mode_info "3840x2160@30" 3840 2160 30%float [];
        mode_info "3840x2160@60" 3840 2160 60%float [("is-current", PBool true)]];
     mon_props := [] |}.

Definition two_active_displays : ConfigState :=
  state [dp1_monitor; hdmi1_active]
        [logical 0 true [dp1]; logical 1920 false [hdmi1]].

(** A catalogue that lists 60.00 Hz before the current 59.94 Hz. *)
Definition ntsc_monitor : Monitor :=
  {| mon_connector_info := dp1;
     mon_mode_list :=
       [mode_info "1920x1080@60" 1920 1080 60%float [];
        mode_info "1920x1080@59.94" 1920 1080 59.94%float current_props];
     mon_props := [] |}.

Definition ntsc_display : ConfigState :=
  state [ntsc_monitor] [logical 0 true [dp1]].

(** A single mode exactly 1.0 Hz above a request for 60 Hz. *)
Definition only61_monitor : Monitor :=
  {| mon_connector_info := dp1;
     mon_mode_list := [mode_info "1920x1080@61" 1920 1080 61%float current_props];
     mon_props := [] |}.

Definition service (st : ConfigState) (fault : option string) : Service :=
  {| svc_proxy := None;
     svc_get_current_state := inr st;
     svc_apply := fun _ _ _ _ => fault |}.

End Samples.

(** * Properties *)

(** ** Target selection *)

Lemma target_matches_spec current r m :
  target_matches current r m = true <->
  width m = width current /\ height m = height current /\
  PrimFloat.ltb (PrimFloat.abs (PrimFloat.sub (refresh m) r)) 1%float = true.
Proof.
  unfold target_matches.
  rewrite !andb_true_iff, !Z.eqb_eq. tauto.
Qed.

Lemma select_target_find modes current r :
  select_target modes current r = List.find (target_matches current r) modes.
Proof.
  induction modes as [|m rest IH]; simpl; [reflexivity|].
  destruct (target_matches current r m); [reflexivity|exact IH].
Qed.

(** What a successful selection means: the list splits at the first
    matching mode. *)
Lemma select_target_Some modes current r m :
  select_target modes current r = Some m <->
  exists pre post,
    modes = pre ++ m :: post /\
    target_matches current r m = true /\
    Forall (fun m' => target_matches current r m' = false) pre.
Proof.
  split.
  - induction modes as [|m0 rest IH]; simpl; [discriminate|].
    destruct (target_matches current r m0) eqn:E.
    + intros [= ->]. exists [], rest. repeat split; auto.
    + intros H. destruct (IH H) as (pre & post & -> & Hm & Hpre).
      exists (m0 :: pre), post. repeat split; auto.
  - intros (pre & post & -> & Hm & Hpre).
    induction Hpre as [|m0 pre Hm0 _ IH]; simpl.
    + rewrite Hm. reflexivity.
    + rewrite Hm0. exact IH.
Qed.

Lemma select_target_None modes current r :
  select_target modes current r = None <->
  Forall (fun m => target_matches current r m = false) modes.
Proof.
  induction modes as [|m rest IH]; simpl.
  - split; [constructor|reflexivity].
  - destruct (target_matches current r m) eqn:E.
    + split; [discriminate|]. intros H. inversion H; congruence.
    + rewrite IH. split; [intros; constructor; assumption|].
      intros H. inversion H; assumption.
Qed.

(** C3.  A mode is eligible as the target exactly when its refresh rate
    is strictly less than 1.0 Hz away from the request and its width and
    height are the current mode's: that is when the loop picks it out of
    a one-element list, it holds of whatever the loop returns from any
    list, and a mode exactly 1.0 Hz away is never returned. *)
Theorem target_eligibility (m current : MonitorMode) (r : float) :
  (select_target [m] current r = Some m <->
     PrimFloat.ltb (PrimFloat.abs (PrimFloat.sub (refresh m) r)) 1%float = true /\
     width m = width current /\ height m = height current) /\
  (forall modes, select_target modes current r = Some m ->
     PrimFloat.ltb (PrimFloat.abs (PrimFloat.sub (refresh m) r)) 1%float = true /\
     width m = width current /\ height m = height current) /\
  (PrimFloat.abs (PrimFloat.sub (refresh m) r) = 1%float ->
     forall modes, select_target modes current r <> Some m).
Proof.
  assert (Hany : forall modes, select_target modes current r = Some m ->
     PrimFloat.ltb (PrimFloat.abs (PrimFloat.sub (refresh m) r)) 1%float = true /\
     width m = width current /\ height m = height current).
  { intros modes H. apply select_target_Some in H.
    destruct H as (pre & post & _ & Hm & _).
    apply target_matches_spec in Hm. tauto. }
  split; [|split].
  - split; [apply Hany|].
    intros (Hr & Hw & Hh). simpl.
    assert (E : target_matches current r m = true)
      by (apply target_matches_spec; tauto).
    rewrite E. reflexivity.
  - exact Hany.
  - intros Hone modes H. apply Hany in H. destruct H as [H _].
    rewrite Hone in H. discriminate H.
Qed.

Lemma target_eligibility_witness :
  let m := mode_entry "DP-1" (Samples.mode_info "1920x1080@61" 1920 1080 61%float []) in
  PrimFloat.abs (PrimFloat.sub (refresh m) 60%float) = 1%float /\
  forall modes, select_target modes m 60%float <> Some m.
Proof.
  split; [reflexivity|].
  apply (target_eligibility _ _ 60%float). reflexivity.
Defined.

(** C2, as amended.  Whatever target selection returns is one of the
    listed modes, has the current mode's width and height, and has a
    refresh rate strictly less than 1.0 Hz away from the request; a
    distance of exactly 1.0 Hz is not a match. *)
Theorem select_target_sound (modes : list MonitorMode) (current m : MonitorMode)
    (r : float) :
  select_target modes current r = Some m ->
  In m modes /\
  (width m, height m) = (width current, height current) /\
  PrimFloat.ltb (PrimFloat.abs (PrimFloat.sub (refresh m) r)) 1%float = true /\
  PrimFloat.abs (PrimFloat.sub (refresh m) r) <> 1%float.
Proof.
  intros H. pose proof H as H'. apply select_target_Some in H'.
  destruct H' as (pre & post & -> & Hm & _).
  apply target_matches_spec in Hm. destruct Hm as (Hw & Hh & Hr).
  split; [apply in_elt|]. split; [congruence|]. split; [exact Hr|].
  intros Hone. rewrite Hone in Hr. discriminate Hr.
Qed.

Lemma select_target_sound_witness :
  let modes := parse_modes (cs_monitors Samples.one_display) in
  let current := mode_entry "DP-1"
    (Samples.mode_info "1920x1080@60" 1920 1080 60%float Samples.current_props) in
  let m := mode_entry "DP-1"
    (Samples.mode_info "1920x1080@240" 1920 1080 240%float []) in
  select_target modes current 240%float = Some m /\
  In m modes /\
  (width m, height m) = (width current, height current) /\
  PrimFloat.ltb (PrimFloat.abs (PrimFloat.sub (refresh m) 240%float)) 1%float = true /\
  PrimFloat.abs (PrimFloat.sub (refresh m) 240%float) <> 1%float.
Proof.
  split; [reflexivity|].
  apply (select_target_sound _ _ _ 240%float). reflexivity.
Defined.

(** C2 as stated fails: with the inclusive boundary of the specification
    the only mode, 1.0 Hz above the request, is the answer; the code
    finds no target. *)
Lemma select_target_boundary_excluded :
  let modes := parse_modes [Samples.only61_monitor] in
  exists current,
    find_current modes = Some current /\
    PrimFloat.abs (PrimFloat.sub (refresh current) 60%float) = 1%float /\
    spec_select_target modes current 60%float = Some current /\
    select_target modes current 60%float = None.
Proof.
  eexists. repeat split; reflexivity.
Qed.

(** C8.  Target selection is a function of the mode list, the current
    resolution and the request, so equal inputs give equal results, and
    among several eligible modes the first in list order is returned. *)
Theorem select_target_first_match (modes : list MonitorMode)
    (current : MonitorMode) (r : float) :
  (forall modes' current' r',
     modes' = modes -> width current' = width current ->
     height current' = height current -> r' = r ->
     select_target modes' current' r' = select_target modes current r) /\
  (forall pre m post,
     modes = pre ++ m :: post ->
     target_matches current r m = true ->
     Forall (fun m' => target_matches current r m' = false) pre ->
     select_target modes current r = Some m).
Proof.
  split.
  - intros modes' current' r' -> Hw Hh ->.
    induction modes as [|m rest IH]; simpl; [reflexivity|].
    rewrite IH. unfold target_matches. rewrite Hw, Hh. reflexivity.
  - intros pre m post Hsplit Hm Hpre.
    apply select_target_Some. exists pre, post. auto.
Qed.

Lemma select_target_first_match_witness :
  let modes := parse_modes (cs_monitors Samples.ntsc_display) in
  let first := mode_entry "DP-1"
    (Samples.mode_info "1920x1080@60" 1920 1080 60%float []) in
  let second := mode_entry "DP-1"
    (Samples.mode_info "1920x1080@59.94" 1920 1080 59.94%float Samples.current_props) in
  target_matches second 60%float first = true /\
  target_matches second 60%float second = true /\
  select_target modes second 60%float = Some first.
Proof.
  intros modes first second.
  split; [reflexivity|]. split; [reflexivity|].
  apply (proj2 (select_target_first_match _ _ 60%float) [] _ [second]).
  - reflexivity.
  - reflexivity.
  - constructor.
Defined.

(** ** Mode parsing *)

Lemma parse_mode_list_app connector0 mode_list modes :
  parse_mode_list connector0 mode_list modes =
  modes ++ map (mode_entry connector0) mode_list.
Proof.
  revert modes. induction mode_list as [|mode rest IH]; intros modes; simpl.
  - rewrite app_nil_r. reflexivity.
  - rewrite IH, <- app_assoc. reflexivity.
Qed.

Lemma parse_monitors_app monitors modes :
  parse_monitors monitors modes =
  modes ++ flat_map
    (fun monitor =>
       map (mode_entry (ci_connector (mon_connector_info monitor)))
           (mon_mode_list monitor)) monitors.
Proof.
  revert modes. induction monitors as [|monitor rest IH]; intros modes; simpl.
  - rewrite app_nil_r. reflexivity.
  - rewrite IH, parse_mode_list_app, <- app_assoc. reflexivity.
Qed.

Lemma Dyn_parse_mode_ok connector0 mode :
  Dyn.parse_mode (PStr connector0) (Dyn.of_mode_info mode) =
  Ok (Dyn.of_mode (mode_entry connector0 mode)).
Proof. destruct mode. reflexivity. Qed.

Lemma Dyn_parse_mode_list_ok connector0 mode_list modes :
  Dyn.parse_mode_list (PStr connector0) (map Dyn.of_mode_info mode_list)
    (map Dyn.of_mode modes) =
  Ok (map Dyn.of_mode (parse_mode_list connector0 mode_list modes)).
Proof.
  revert modes. induction mode_list as [|mode rest IH]; intros modes.
  - reflexivity.
  - cbn [map Dyn.parse_mode_list parse_mode_list].
    rewrite Dyn_parse_mode_ok. cbn [mbind result_bind].
    rewrite <- IH, map_app. reflexivity.
Qed.

Lemma Dyn_parse_monitors_cons monitor rest modes :
  Dyn.parse_monitors (Dyn.of_monitor monitor :: rest) modes =
  modes' ← Dyn.parse_mode_list
              (PStr (ci_connector (mon_connector_info monitor)))
              (map Dyn.of_mode_info (mon_mode_list monitor)) modes;
  Dyn.parse_monitors rest modes'.
Proof. reflexivity. Qed.

Lemma Dyn_parse_monitors_ok monitors modes :
  Dyn.parse_monitors (map Dyn.of_monitor monitors) (map Dyn.of_mode modes) =
  Ok (map Dyn.of_mode (parse_monitors monitors modes)).
Proof.
  revert modes. induction monitors as [|monitor rest IH]; intros modes.
  - reflexivity.
  - cbn [map parse_monitors].
    rewrite Dyn_parse_monitors_cons, Dyn_parse_mode_list_ok.
    cbn [mbind result_bind].
    apply IH.
Qed.

(** C6, as amended.  On every monitor list that has the shape of the
    service reply, mode parsing raises nothing and returns one entry per
    mode of every connector, in order and with nothing left out; the
    result is a function of the argument alone. *)
Theorem parse_modes_total (monitors : list Monitor) :
  Dyn.parse_modes (Dyn.of_monitors monitors) =
    Ok (map Dyn.of_mode (parse_modes monitors)) /\
  parse_modes monitors =
    flat_map
      (fun monitor =>
         map (mode_entry (ci_connector (mon_connector_info monitor)))
             (mon_mode_list monitor)) monitors /\
  length (parse_modes monitors) =
    list_sum (map (fun monitor => length (mon_mode_list monitor)) monitors).
Proof.
  assert (E : parse_modes monitors =
    flat_map
      (fun monitor =>
         map (mode_entry (ci_connector (mon_connector_info monitor)))
             (mon_mode_list monitor)) monitors)
    by (unfold parse_modes; rewrite parse_monitors_app; reflexivity).
  split; [|split].
  - unfold Dyn.parse_modes, Dyn.of_monitors, parse_modes.
    cbn [Dyn.py_iter mbind result_bind].
    apply (Dyn_parse_monitors_ok monitors []).
  - exact E.
  - rewrite E. clear E.
    induction monitors as [|monitor rest IH]; simpl; [reflexivity|].
    rewrite length_app, length_map, IH. reflexivity.
Qed.

(** C6 as stated fails: an entry of the wrong shape is not skipped, it
    makes the whole parse raise, also when well-shaped entries precede
    it.  A monitor with two components, a mode with six, and a property
    map that is a list. *)
Lemma parse_modes_malformed_raises :
  Dyn.parse_modes
    (PList [Dyn.of_monitor Samples.dp1_monitor;
            PTuple [Dyn.of_connector_info Samples.hdmi1; PList []]])
    = Raise ValueError /\
  Dyn.parse_modes
    (PList [PTuple [Dyn.of_connector_info Samples.dp1;
                    PList [PTuple [PStr "1920x1080@60"; PInt 1920; PInt 1080;
                                   PFloat 60%float; PFloat 1%float;
                                   PList [PFloat 1%float]]];
                    PDict []]])
    = Raise ValueError /\
  Dyn.parse_modes
    (PList [PTuple [Dyn.of_connector_info Samples.dp1;
                    PList [PTuple [PStr "1920x1080@60"; PInt 1920; PInt 1080;
                                   PFloat 60%float; PFloat 1%float;
                                   PList [PFloat 1%float]; PList []]];
                    PDict []]])
    = Raise AttributeError.
Proof. repeat split; reflexivity. Qed.

(** ** Rebuilding the configuration *)

Lemma lookup_current_mode_find modes connector0 mode_str :
  lookup_current_mode modes connector0 mode_str =
  match current_mode_of modes connector0 with
  | Some m => Some (mode_id m)
  | None => mode_str
  end.
Proof.
  unfold current_mode_of.
  induction modes as [|m rest IH]; simpl; [reflexivity|].
  destruct (String.eqb (connector m) connector0 && truthy (is_current m));
    [reflexivity|exact IH].
Qed.

(** The accumulator only collects: the loops can be read with an empty
    one. *)
Lemma build_monitor_configs_acc modes target mcs mode_str acc :
  build_monitor_configs modes target mcs mode_str acc =
  (fun r => (r.1, acc ++ r.2)) <$> build_monitor_configs modes target mcs mode_str [].
Proof.
  revert mode_str acc. induction mcs as [|mc rest IH]; intros mode_str acc.
  - simpl. rewrite app_nil_r. reflexivity.
  - cbn [build_monitor_configs].
    destruct (read_mode_str (assign_mode_str modes target mc mode_str)) as [s|e];
      cbn [mbind result_bind fmap result_fmap]; [|reflexivity].
    rewrite IH. rewrite (IH _ ([] ++ _)).
    destruct (build_monitor_configs modes target rest _ []) as [[ms out]|e];
      cbn [fmap result_fmap fst snd]; [|reflexivity].
    rewrite <- app_assoc. reflexivity.
Qed.

Lemma build_monitor_configs_cons modes target mc rest mode_str :
  build_monitor_configs modes target (mc :: rest) mode_str [] =
  let mode_str1 := assign_mode_str modes target mc mode_str in
  s ← read_mode_str mode_str1;
  (fun r => (r.1, {| mc_connector := ci_connector mc; mc_mode_id := s;
                     mc_properties := [] |} :: r.2))
    <$> build_monitor_configs modes target rest mode_str1 [].
Proof.
  cbn [build_monitor_configs].
  destruct (read_mode_str _) as [s|e]; cbn [mbind result_bind]; [|reflexivity].
  apply build_monitor_configs_acc.
Qed.

Lemma build_monitor_configs_app modes target l1 l2 mode_str :
  build_monitor_configs modes target (l1 ++ l2) mode_str [] =
  r1 ← build_monitor_configs modes target l1 mode_str [];
  (fun r2 => (r2.1, r1.2 ++ r2.2))
    <$> build_monitor_configs modes target l2 r1.1 [].
Proof.
  revert mode_str. induction l1 as [|mc rest IH]; intros mode_str.
  - cbn [app build_monitor_configs mbind result_bind fst snd].
    destruct (build_monitor_configs modes target l2 mode_str []) as [[ms out]|e];
      reflexivity.
  - rewrite <- app_comm_cons, !build_monitor_configs_cons.
    cbv zeta.
    destruct (read_mode_str _) as [s|e]; cbn [mbind result_bind]; [|reflexivity].
    rewrite IH.
    destruct (build_monitor_configs modes target rest _ []) as [[ms1 out1]|e];
      cbn [mbind result_bind fmap result_fmap fst snd]; [|reflexivity].
    destruct (build_monitor_configs modes target l2 ms1 []) as [[ms2 out2]|e];
      reflexivity.
Qed.

Lemma build_logical_monitors_acc modes target lms mode_str acc :
  build_logical_monitors modes target lms mode_str acc =
  (fun r => (r.1, acc ++ r.2)) <$> build_logical_monitors modes target lms mode_str [].
Proof.
  revert mode_str acc. induction lms as [|lm rest IH]; intros mode_str acc.
  - simpl. rewrite app_nil_r. reflexivity.
  - cbn [build_logical_monitors].
    destruct (build_monitor_configs modes target (lm_monitor_configs lm) mode_str [])
      as [[ms out]|e]; cbn [mbind result_bind fmap result_fmap]; [|reflexivity].
    rewrite IH. rewrite (IH _ ([] ++ _)).
    destruct (build_logical_monitors modes target rest ms []) as [[ms' out']|e];
      cbn [fmap result_fmap fst snd]; [|reflexivity].
    rewrite <- app_assoc. reflexivity.
Qed.

Lemma build_logical_monitors_cons modes target lm rest mode_str :
  build_logical_monitors modes target (lm :: rest) mode_str [] =
  r1 ← build_monitor_configs modes target (lm_monitor_configs lm) mode_str [];
  (fun r => (r.1, {| nl_x := lm_x lm; nl_y := lm_y lm; nl_scale := lm_scale lm;
                     nl_transform := lm_transform lm;
                     nl_is_primary := lm_is_primary lm;
                     nl_monitor_configs := r1.2 |} :: r.2))
    <$> build_logical_monitors modes target rest r1.1 [].
Proof.
  cbn [build_logical_monitors].
  destruct (build_monitor_configs modes target (lm_monitor_configs lm) mode_str [])
    as [[ms out]|e]; cbn [mbind result_bind fst snd]; [|reflexivity].
  apply build_logical_monitors_acc.
Qed.

(** The nesting into logical monitors does not matter to [mode_str]:
    the entries are those of one pass over all referenced connectors. *)
Lemma build_logical_monitors_flat modes target lms mode_str :
  (fun r => (r.1, entries r.2))
    <$> build_logical_monitors modes target lms mode_str [] =
  build_monitor_configs modes target (referenced lms) mode_str [].
Proof.
  revert mode_str. induction lms as [|lm rest IH]; intros mode_str.
  - reflexivity.
  - unfold referenced. cbn [flat_map]. fold (referenced rest).
    rewrite build_logical_monitors_cons, build_monitor_configs_app.
    destruct (build_monitor_configs modes target (lm_monitor_configs lm) mode_str [])
      as [[ms out]|e]; cbn [mbind result_bind fmap result_fmap fst snd];
      [|reflexivity].
    rewrite <- IH.
    destruct (build_logical_monitors modes target rest ms []) as [[ms' out']|e];
      reflexivity.
Qed.

Lemma assign_mode_str_target modes target mc mode_str :
  ci_connector mc = connector target ->
  assign_mode_str modes target mc mode_str = Some (mode_id target).
Proof.
  intros E. unfold assign_mode_str.
  apply String.eqb_eq in E. rewrite E. reflexivity.
Qed.

Lemma assign_mode_str_other modes target mc mode_str :
  ci_connector mc <> connector target ->
  assign_mode_str modes target mc mode_str =
  match current_mode_of modes (ci_connector mc) with
  | Some m => Some (mode_id m)
  | None => mode_str
  end.
Proof.
  intros E. unfold assign_mode_str.
  apply String.eqb_neq in E. rewrite E. apply lookup_current_mode_find.
Qed.

(** Once bound, [mode_str] stays bound. *)
Lemma assign_mode_str_bound modes target mc s :
  exists s', assign_mode_str modes target mc (Some s) = Some s'.
Proof.
  destruct (String.eqb_spec (ci_connector mc) (connector target)) as [E|E].
  - rewrite assign_mode_str_target by exact E. eauto.
  - rewrite assign_mode_str_other by exact E.
    destruct (current_mode_of modes (ci_connector mc)); eauto.
Qed.

Lemma build_monitor_configs_bound modes target mcs s :
  exists r, build_monitor_configs modes target mcs (Some s) [] = Ok r.
Proof.
  revert s. induction mcs as [|mc rest IH]; intros s.
  - simpl. eauto.
  - rewrite build_monitor_configs_cons. cbv zeta.
    destruct (assign_mode_str_bound modes target mc s) as [s' ->].
    cbn [read_mode_str mbind result_bind].
    destruct (IH s') as [r ->]. cbn [fmap result_fmap]. eauto.
Qed.

(** The only exception the rebuild can raise. *)
Lemma build_monitor_configs_raises modes target mcs mode_str e :
  build_monitor_configs modes target mcs mode_str [] = Raise e ->
  e = UnboundLocalError "mode_str".
Proof.
  revert mode_str. induction mcs as [|mc rest IH]; intros mode_str.
  - discriminate.
  - rewrite build_monitor_configs_cons. cbv zeta.
    destruct (assign_mode_str modes target mc mode_str) as [s|];
      cbn [read_mode_str mbind result_bind]; [|congruence].
    destruct (build_monitor_configs modes target rest (Some s) []) as [r|e'] eqn:E;
      cbn [fmap result_fmap]; [discriminate|].
    intros [= <-]. exact (IH _ E).
Qed.

Lemma last_cons_default {A} (x : A) (l : list A) (d d' : A) :
  List.last (x :: l) d = List.last (x :: l) d'.
Proof.
  revert x. induction l as [|y l IH]; intros x; [reflexivity|].
  change (List.last (y :: l) d = List.last (y :: l) d'). apply IH.
Qed.

(** What a successful inner pass leaves behind: one entry per connector,
    in order, every property map empty, and [mode_str] holding the mode
    of the last entry. *)
Lemma build_monitor_configs_inv modes target mcs mode_str mode_str' out :
  build_monitor_configs modes target mcs mode_str [] = Ok (mode_str', out) ->
  map mc_connector out = map ci_connector mcs /\
  Forall (fun e => mc_properties e = []) out /\
  mode_str' = List.last (map (fun e => Some (mc_mode_id e)) out) mode_str.
Proof.
  revert mode_str mode_str' out.
  induction mcs as [|mc rest IH]; intros mode_str mode_str' out.
  - intros [= <- <-]. repeat split; constructor.
  - rewrite build_monitor_configs_cons. cbv zeta.
    destruct (assign_mode_str modes target mc mode_str) as [s|];
      cbn [read_mode_str mbind result_bind]; [|discriminate].
    destruct (build_monitor_configs modes target rest (Some s) [])
      as [[ms out']|e'] eqn:E; cbn [fmap result_fmap fst snd]; [|discriminate].
    intros [= <- <-]. destruct (IH _ _ _ E) as (Hc & Hp & Hl).
    split; [simpl; congruence|]. split; [constructor; [reflexivity|exact Hp]|].
    rewrite Hl. destruct out' as [|e1 out1]; [reflexivity|].
    cbn [map]. apply (last_cons_default (Some (mc_mode_id e1))).
Qed.

Lemma build_logical_monitors_shape modes target lms mode_str mode_str' out :
  build_logical_monitors modes target lms mode_str [] = Ok (mode_str', out) ->
  Forall2
    (fun lm nl =>
       nl_x nl = lm_x lm /\ nl_y nl = lm_y lm /\ nl_scale nl = lm_scale lm /\
       nl_transform nl = lm_transform lm /\
       nl_is_primary nl = lm_is_primary lm /\
       map mc_connector (nl_monitor_configs nl) =
         map ci_connector (lm_monitor_configs lm))
    lms out.
Proof.
  revert mode_str mode_str' out.
  induction lms as [|lm rest IH]; intros mode_str mode_str' out.
  - intros [= <- <-]. constructor.
  - rewrite build_logical_monitors_cons.
    destruct (build_monitor_configs modes target (lm_monitor_configs lm) mode_str [])
      as [[ms mcs]|e] eqn:E; cbn [mbind result_bind fst snd]; [|discriminate].
    destruct (build_logical_monitors modes target rest ms [])
      as [[ms' out']|e] eqn:E'; cbn [fmap result_fmap fst snd]; [|discriminate].
    intros [= <- <-]. constructor; [|exact (IH _ _ _ E')].
    cbn. repeat split; try reflexivity.
    exact (proj1 (build_monitor_configs_inv _ _ _ _ _ _ E)).
Qed.

Lemma build_logical_monitors_props modes target (f : LogicalMonitor -> pydict)
    lms mode_str acc :
  build_logical_monitors modes target
    (map (fun lm => with_lm_props (f lm) lm) lms) mode_str acc =
  build_logical_monitors modes target lms mode_str acc.
Proof.
  revert mode_str acc. induction lms as [|lm rest IH]; intros mode_str acc.
  - reflexivity.
  - cbn [map build_logical_monitors with_lm_props lm_monitor_configs
         lm_x lm_y lm_scale lm_transform lm_is_primary].
    destruct (build_monitor_configs modes target (lm_monitor_configs lm) mode_str [])
      as [[ms mcs]|e]; cbn [mbind result_bind]; [|reflexivity].
    apply IH.
Qed.

(** The rebuilt list, when there is one, in terms of the two loops. *)
Lemma build_new_configuration_Ok modes target lms cfg :
  build_new_configuration modes target lms = Ok cfg <->
  exists mode_str,
    build_logical_monitors modes target lms None [] = Ok (mode_str, cfg).
Proof.
  unfold build_new_configuration.
  destruct (build_logical_monitors modes target lms None []) as [[ms out]|e];
    cbn [mbind result_bind].
  - split; [intros [= <-]; eauto|]. intros (ms' & [= _ <-]). reflexivity.
  - split; [discriminate|]. intros (ms' & [=]).
Qed.

Lemma build_new_configuration_flat modes target lms cfg :
  build_new_configuration modes target lms = Ok cfg ->
  exists mode_str,
    build_monitor_configs modes target (referenced lms) None [] =
      Ok (mode_str, entries cfg).
Proof.
  intros H. apply build_new_configuration_Ok in H. destruct H as [ms H].
  exists ms. rewrite <- build_logical_monitors_flat, H. reflexivity.
Qed.

Lemma build_new_configuration_raises modes target lms e :
  build_new_configuration modes target lms = Raise e ->
  e = UnboundLocalError "mode_str".
Proof.
  unfold build_new_configuration. intros H.
  pose proof (build_logical_monitors_flat modes target lms None) as F.
  destruct (build_logical_monitors modes target lms None []) as [[ms out]|e'];
    cbn [mbind result_bind fmap result_fmap] in *; [discriminate|].
  injection H as <-. symmetry in F.
  exact (build_monitor_configs_raises _ _ _ _ _ F).
Qed.

(** ** The set operation as a whole *)

Lemma apply_calls_app t1 t2 :
  apply_calls (t1 ++ t2) = apply_calls t1 ++ apply_calls t2.
Proof.
  induction t1 as [|ev t1 IH]; [reflexivity|].
  destruct ev; simpl; rewrite IH; reflexivity.
Qed.

Lemma apply_calls_lookup t i serial method cfg p :
  t !! i = Some (EvApplyMonitorsConfig serial method cfg p) ->
  In cfg (apply_calls t).
Proof.
  revert i. induction t as [|ev t IH]; intros i; [destruct i; discriminate|].
  destruct i as [|i]; simpl.
  - intros [= ->]. left. reflexivity.
  - intros H. apply IH in H. destruct ev; simpl; auto.
Qed.

Lemma print_available_rates_io modes current :
  exists t, print_available_rates modes current = mkIO t (Ok tt) /\
            apply_calls t = [].
Proof.
  induction modes as [|m rest (t & IH & Ht)]; simpl.
  - exists []. split; reflexivity.
  - rewrite IH.
    destruct (Z.eqb (width m) (width current) && Z.eqb (height m) (height current)).
    + exists (EvPrint (MsgRate (refresh m)) :: t). split; [reflexivity|exact Ht].
    + exists t. split; [reflexivity|exact Ht].
Qed.

(** The path through lines 163-195, once a target that is not the
    current mode has been selected. *)
Lemma set_refresh_rate_rebuild svc r st current target :
  svc_proxy svc = None ->
  svc_get_current_state svc = inr st ->
  find_current (parse_modes (cs_monitors st)) = Some current ->
  select_target (parse_modes (cs_monitors st)) current r = Some target ->
  truthy (is_current target) = false ->
  set_refresh_rate svc r =
  match build_new_configuration (parse_modes (cs_monitors st)) target
          (cs_logical_monitors st) with
  | Raise e => mkIO [EvGetCurrentState] (Raise e)
  | Ok cfg =>
      match svc_apply svc (cs_serial st) 1 cfg [] with
      | None =>
          mkIO [EvGetCurrentState;
                EvApplyMonitorsConfig (cs_serial st) 1 cfg [];
                EvPrint (MsgRefreshSet (refresh target))] (Ok true)
      | Some msg =>
          mkIO [EvGetCurrentState;
                EvApplyMonitorsConfig (cs_serial st) 1 cfg [];
                EvPrint (MsgApplyError (GLibError msg))] (Ok false)
      end
  end.
Proof.
  intros Hp Hs Hc Ht Hn.
  unfold set_refresh_rate, get_display_config_proxy, get_current_state.
  rewrite Hp, Hs. cbn. rewrite Hc, Ht, Hn.
  destruct (build_new_configuration _ target _) as [cfg|e]; cbn; [|reflexivity].
  unfold apply_config, try_except. cbn.
  destruct (svc_apply svc (cs_serial st) 1 cfg []); reflexivity.
Qed.

(** The no-op path of lines 159-161. *)
Lemma set_refresh_rate_already svc r st current target :
  svc_proxy svc = None ->
  svc_get_current_state svc = inr st ->
  find_current (parse_modes (cs_monitors st)) = Some current ->
  select_target (parse_modes (cs_monitors st)) current r = Some target ->
  truthy (is_current target) = true ->
  set_refresh_rate svc r =
  mkIO [EvGetCurrentState; EvPrint (MsgAlreadyAt r)] (Ok true).
Proof.
  intros Hp Hs Hc Ht Hy.
  unfold set_refresh_rate, get_display_config_proxy, get_current_state.
  rewrite Hp, Hs. cbn. rewrite Hc, Ht, Hy. reflexivity.
Qed.

(** Every run either never calls [ApplyMonitorsConfig] or went through
    the rebuild with some state, current mode, target and rebuilt list. *)
Lemma set_refresh_rate_cases svc r :
  (apply_calls (io_trace (set_refresh_rate svc r)) = [] /\
   io_result (set_refresh_rate svc r) <> Raise ValueError) \/
  (exists st current target cfg,
     svc_proxy svc = None /\
     svc_get_current_state svc = inr st /\
     find_current (parse_modes (cs_monitors st)) = Some current /\
     select_target (parse_modes (cs_monitors st)) current r = Some target /\
     truthy (is_current target) = false /\
     build_new_configuration (parse_modes (cs_monitors st)) target
       (cs_logical_monitors st) = Ok cfg).
Proof.
  destruct (svc_proxy svc) as [msg|] eqn:Hp.
  { left. unfold set_refresh_rate, get_display_config_proxy. rewrite Hp.
    cbn. split; [reflexivity|discriminate]. }
  destruct (svc_get_current_state svc) as [msg|st] eqn:Hs.
  { left. unfold set_refresh_rate, get_display_config_proxy, get_current_state.
    rewrite Hp, Hs. cbn. split; [reflexivity|discriminate]. }
  destruct (find_current (parse_modes (cs_monitors st))) as [current|] eqn:Hc.
  2:{ left. unfold set_refresh_rate, get_display_config_proxy, get_current_state.
      rewrite Hp, Hs. cbn. rewrite Hc. cbn. split; [reflexivity|discriminate]. }
  destruct (select_target (parse_modes (cs_monitors st)) current r)
    as [target|] eqn:Ht.
  2:{ left. unfold set_refresh_rate, get_display_config_proxy, get_current_state.
      rewrite Hp, Hs. cbn. rewrite Hc, Ht.
      destruct (print_available_rates_io (parse_modes (cs_monitors st)) current)
        as (t & -> & Hcalls).
      cbn. rewrite app_nil_r, Hcalls. split; [reflexivity|discriminate]. }
  destruct (truthy (is_current target)) eqn:Hy.
  { left. rewrite (set_refresh_rate_already _ _ _ _ _ Hp Hs Hc Ht Hy).
    split; [reflexivity|discriminate]. }
  destruct (build_new_configuration (parse_modes (cs_monitors st)) target
              (cs_logical_monitors st)) as [cfg|e] eqn:Hb.
  - right. exists st, current, target, cfg. auto 10.
  - left. rewrite (set_refresh_rate_rebuild _ _ _ _ _ Hp Hs Hc Ht Hy), Hb.
    split; [reflexivity|]. cbn.
    rewrite (build_new_configuration_raises _ _ _ _ Hb). discriminate.
Qed.

(** The one configuration a run submits is the rebuilt one. *)
Lemma set_refresh_rate_submits svc r cfg :
  In cfg (apply_calls (io_trace (set_refresh_rate svc r))) ->
  exists st current target,
    svc_get_current_state svc = inr st /\
    find_current (parse_modes (cs_monitors st)) = Some current /\
    select_target (parse_modes (cs_monitors st)) current r = Some target /\
    truthy (is_current target) = false /\
    build_new_configuration (parse_modes (cs_monitors st)) target
      (cs_logical_monitors st) = Ok cfg.
Proof.
  intros Hin.
  destruct (set_refresh_rate_cases svc r)
    as [[Hnone _]|(st & current & target & cfg' & Hp & Hs & Hc & Ht & Hy & Hb)].
  - rewrite Hnone in Hin. destruct Hin.
  - exists st, current, target.
    rewrite (set_refresh_rate_rebuild _ _ _ _ _ Hp Hs Hc Ht Hy), Hb in Hin.
    assert (cfg' = cfg) as <-.
    { destruct (svc_apply svc (cs_serial st) 1 cfg' []);
        simpl in Hin; destruct Hin as [E|[]]; exact E. }
    auto 10.
Qed.

(** ** Claims about the rebuilt configuration *)

Lemma build_monitor_configs_good modes target mcs mode_str :
  (forall mc, In mc mcs -> ci_connector mc <> connector target ->
              current_mode_of modes (ci_connector mc) <> None) ->
  exists mode_str' out,
    build_monitor_configs modes target mcs mode_str [] = Ok (mode_str', out) /\
    Forall2 (entry_for modes target) mcs out.
Proof.
  revert mode_str. induction mcs as [|mc rest IH]; intros mode_str Hgood.
  - exists mode_str, []. split; [reflexivity|constructor].
  - rewrite build_monitor_configs_cons. cbv zeta.
    assert (Hs : exists s,
              assign_mode_str modes target mc mode_str = Some s /\
              entry_for modes target mc
                {| mc_connector := ci_connector mc; mc_mode_id := s;
                   mc_properties := [] |}).
    { destruct (String.eqb_spec (ci_connector mc) (connector target)) as [E|E].
      - rewrite assign_mode_str_target by exact E.
        exists (mode_id target). split; [reflexivity|].
        split; [reflexivity|]. split; [reflexivity|]. intros N. contradiction.
      - rewrite assign_mode_str_other by exact E.
        destruct (current_mode_of modes (ci_connector mc)) as [m|] eqn:Hm.
        + exists (mode_id m). split; [reflexivity|].
          split; [reflexivity|]. split; [intros N; contradiction|].
          intros _. exists m. rewrite Hm. split; reflexivity.
        + exfalso. apply (Hgood mc); [left; reflexivity|exact E|exact Hm]. }
    destruct Hs as (s & -> & He). cbn [read_mode_str mbind result_bind].
    destruct (IH (Some s)) as (ms' & out & -> & Hout).
    { intros mc' Hin. apply Hgood. right. exact Hin. }
    cbn [fmap result_fmap fst snd]. eexists _, _. split; [reflexivity|].
    constructor; assumption.
Qed.

Lemma build_logical_monitors_good modes target lms mode_str :
  (forall mc, In mc (referenced lms) -> ci_connector mc <> connector target ->
              current_mode_of modes (ci_connector mc) <> None) ->
  exists mode_str' out,
    build_logical_monitors modes target lms mode_str [] = Ok (mode_str', out) /\
    Forall2 (fun lm nl =>
               Forall2 (entry_for modes target)
                       (lm_monitor_configs lm) (nl_monitor_configs nl))
            lms out.
Proof.
  revert mode_str. induction lms as [|lm rest IH]; intros mode_str Hgood.
  - exists mode_str, []. split; [reflexivity|constructor].
  - rewrite build_logical_monitors_cons.
    destruct (build_monitor_configs_good modes target (lm_monitor_configs lm) mode_str)
      as (ms1 & out1 & -> & H1).
    { intros mc Hin. apply Hgood. unfold referenced. cbn [flat_map].
      apply in_or_app. left. exact Hin. }
    cbn [mbind result_bind fst snd].
    destruct (IH ms1) as (ms2 & out2 & -> & H2).
    { intros mc Hin. apply Hgood. unfold referenced. cbn [flat_map].
      apply in_or_app. right. exact Hin. }
    cbn [fmap result_fmap fst snd]. eexists _, _. split; [reflexivity|].
    constructor; [exact H1|exact H2].
Qed.

(** C1, as amended.  When the set operation reaches the rebuild and every
    referenced connector other than the target's has a parsed mode
    flagged current, it submits one configuration; that configuration has
    an entry for every connector of every fetched logical monitor, in
    order; the entry of the target's connector carries the target's
    mode_id and every other entry the mode_id of the mode that the parsed
    list flags current for its connector. *)
Theorem rebuilt_configuration_modes (svc : Service) (r : float)
    (st : ConfigState) (current target : MonitorMode) :
  svc_proxy svc = None ->
  svc_get_current_state svc = inr st ->
  find_current (parse_modes (cs_monitors st)) = Some current ->
  select_target (parse_modes (cs_monitors st)) current r = Some target ->
  truthy (is_current target) = false ->
  (forall mc, In mc (referenced (cs_logical_monitors st)) ->
              ci_connector mc <> connector target ->
              current_mode_of (parse_modes (cs_monitors st)) (ci_connector mc)
                <> None) ->
  exists cfg,
    apply_calls (io_trace (set_refresh_rate svc r)) = [cfg] /\
    Forall2 (fun lm nl =>
               Forall2 (entry_for (parse_modes (cs_monitors st)) target)
                       (lm_monitor_configs lm) (nl_monitor_configs nl))
            (cs_logical_monitors st) cfg.
Proof.
  intros Hp Hs Hc Ht Hn Hgood.
  destruct (build_logical_monitors_good _ target _ None Hgood)
    as (ms & cfg & Hb & Hall).
  exists cfg. split; [|exact Hall].
  rewrite (set_refresh_rate_rebuild _ _ _ _ _ Hp Hs Hc Ht Hn).
  unfold build_new_configuration. rewrite Hb. cbn [mbind result_bind].
  destruct (svc_apply svc (cs_serial st) 1 cfg []); reflexivity.
Qed.

Lemma rebuilt_configuration_modes_witness :
  exists cfg,
    apply_calls
      (io_trace (set_refresh_rate
                   (Samples.service Samples.two_active_displays None) 240%float))
      = [cfg] /\
    Forall2 (fun lm nl =>
               Forall2 (entry_for
                          (parse_modes (cs_monitors Samples.two_active_displays))
                          (mode_entry "DP-1"
                             (Samples.mode_info "1920x1080@240" 1920 1080 240%float [])))
                       (lm_monitor_configs lm) (nl_monitor_configs nl))
            (cs_logical_monitors Samples.two_active_displays) cfg.
Proof.
  eapply (rebuilt_configuration_modes
            (Samples.service Samples.two_active_displays None) 240%float
            Samples.two_active_displays);
    [reflexivity|reflexivity|reflexivity|reflexivity|reflexivity|].
  intros mc Hin Hne. simpl in Hin. destruct Hin as [<-|[<-|[]]].
  - exfalso. apply Hne. reflexivity.
  - vm_compute. discriminate.
Defined.

(** C1 as stated fails on a state whose second logical monitor refers to
    a connector without a current mode: the run submits a configuration
    in which HDMI-1 carries the mode_id chosen for DP-1, which is the
    mode_id of none of HDMI-1's modes. *)
Lemma rebuilt_configuration_stale_entry :
  let st := Samples.two_displays in
  let modes := parse_modes (cs_monitors st) in
  current_mode_of modes "HDMI-1" = None /\
  map mode_id (filter (fun m => String.eqb (connector m) "HDMI-1") modes)
    = ["3840x2160@60"] /\
  map (fun cfg => map (fun e => (mc_connector e, mc_mode_id e)) (entries cfg))
      (apply_calls (io_trace (set_refresh_rate (Samples.service st None) 240%float)))
    = [[("DP-1", "1920x1080@240"); ("HDMI-1", "1920x1080@240")]].
Proof. repeat split; reflexivity. Qed.

(** The rebuild fails at the first connector processed when that one
    leaves [mode_str] unbound, whatever comes after it. *)
Lemma build_fails_at_unbound_first modes target lms first rest :
  referenced lms = first :: rest ->
  assign_mode_str modes target first None = None ->
  build_new_configuration modes target lms = Raise (UnboundLocalError "mode_str").
Proof.
  intros Href Hfirst.
  pose proof (build_logical_monitors_flat modes target lms None) as F.
  rewrite Href, build_monitor_configs_cons in F. cbv zeta in F.
  rewrite Hfirst in F. cbn [read_mode_str mbind result_bind] in F.
  unfold build_new_configuration.
  destruct (build_logical_monitors modes target lms None []) as [[ms out]|e];
    cbn [fmap result_fmap] in F; [discriminate|].
  injection F as ->. reflexivity.
Qed.

(** It produces a configuration when the first connector binds
    [mode_str]. *)
Lemma build_succeeds_after_bound_first modes target lms first rest :
  referenced lms = first :: rest ->
  assign_mode_str modes target first None <> None ->
  exists cfg, build_new_configuration modes target lms = Ok cfg.
Proof.
  intros Href Hfirst.
  pose proof (build_logical_monitors_flat modes target lms None) as F.
  rewrite Href, build_monitor_configs_cons in F. cbv zeta in F.
  destruct (assign_mode_str modes target first None) as [s|];
    [|congruence].
  cbn [read_mode_str mbind result_bind] in F.
  destruct (build_monitor_configs_bound modes target rest s) as [r Hr].
  rewrite Hr in F. unfold build_new_configuration.
  destruct (build_logical_monitors modes target lms None []) as [[ms out]|e];
    cbn [fmap result_fmap] in F; [|discriminate].
  exists out. reflexivity.
Qed.

(** In a produced configuration, the entry of a connector whose
    assignment changes nothing repeats the entry before it. *)
Lemma stale_entry_repeats_previous modes target lms mc pre p post cfg :
  (forall mode_str, assign_mode_str modes target mc mode_str = mode_str) ->
  referenced lms = pre ++ p :: mc :: post ->
  build_new_configuration modes target lms = Ok cfg ->
  exists e' e,
    entries cfg !! length pre = Some e' /\
    entries cfg !! S (length pre) = Some e /\
    mc_connector e' = ci_connector p /\
    mc_connector e = ci_connector mc /\
    mc_mode_id e = mc_mode_id e'.
Proof.
  intros Hassign Href Hb.
  apply build_new_configuration_flat in Hb. destruct Hb as [ms Hb].
  rewrite Href, build_monitor_configs_app in Hb.
  destruct (build_monitor_configs modes target pre None [])
    as [[ms1 out1]|e1] eqn:E1; cbn [mbind result_bind fst snd] in Hb;
    [|discriminate].
  rewrite build_monitor_configs_cons in Hb. cbv zeta in Hb.
  destruct (assign_mode_str modes target p ms1) as [s|];
    cbn [read_mode_str mbind result_bind] in Hb; [|discriminate].
  rewrite build_monitor_configs_cons in Hb. cbv zeta in Hb.
  rewrite Hassign in Hb. cbn [read_mode_str mbind result_bind] in Hb.
  destruct (build_monitor_configs modes target post (Some s) [])
    as [[ms3 out3]|e3]; cbn [fmap result_fmap fst snd] in Hb; [|discriminate].
  injection Hb as _ Hentries.
  assert (Hlen : length out1 = length pre).
  { apply build_monitor_configs_inv in E1. destruct E1 as [Hc _].
    apply (f_equal (@length _)) in Hc. rewrite !length_map in Hc. exact Hc. }
  rewrite <- Hentries, <- Hlen.
  exists {| mc_connector := ci_connector p; mc_mode_id := s;
            mc_properties := [] |},
         {| mc_connector := ci_connector mc; mc_mode_id := s;
            mc_properties := [] |}.
  split; [apply list_lookup_middle; reflexivity|].
  split; [|repeat split].
  rewrite lookup_app_r by lia.
  replace (S (length out1) - length out1)%nat with 1%nat by lia.
  reflexivity.
Qed.

(** C9, as amended.  For a referenced connector that is not the target's
    and has no mode flagged current, the assignment leaves [mode_str] as
    it was.  If that connector is the first one processed the rebuild
    raises UnboundLocalError.  If it is not the first, all depends on the
    first connector processed: when that one leaves [mode_str] unbound
    the rebuild has already raised UnboundLocalError there and the
    connector gets no entry; when it binds [mode_str] the rebuild
    produces a configuration in which the connector's entry repeats the
    mode_id of the entry just before it. *)
Theorem rebuild_reuses_mode_str (modes : list MonitorMode) (target : MonitorMode)
    (lms : list LogicalMonitor) (mc : ConnectorInfo) :
  ci_connector mc <> connector target ->
  current_mode_of modes (ci_connector mc) = None ->
  (forall mode_str, assign_mode_str modes target mc mode_str = mode_str) /\
  (forall rest,
     referenced lms = mc :: rest ->
     build_new_configuration modes target lms = Raise (UnboundLocalError "mode_str")) /\
  (forall first rest,
     referenced lms = first :: rest ->
     assign_mode_str modes target first None = None ->
     build_new_configuration modes target lms = Raise (UnboundLocalError "mode_str")) /\
  (forall first rest pre p post,
     referenced lms = first :: rest ->
     assign_mode_str modes target first None <> None ->
     referenced lms = pre ++ p :: mc :: post ->
     exists cfg e' e,
       build_new_configuration modes target lms = Ok cfg /\
       entries cfg !! length pre = Some e' /\
       entries cfg !! S (length pre) = Some e /\
       mc_connector e' = ci_connector p /\
       mc_connector e = ci_connector mc /\
       mc_mode_id e = mc_mode_id e').
Proof.
  intros Hne Hnone.
  assert (Hassign : forall mode_str,
            assign_mode_str modes target mc mode_str = mode_str).
  { intros mode_str. rewrite assign_mode_str_other by exact Hne.
    rewrite Hnone. reflexivity. }
  split; [exact Hassign|]. split; [|split].
  - intros rest Href.
    apply (build_fails_at_unbound_first modes target lms mc rest Href).
    apply Hassign.
  - intros first rest Href Hfirst.
    exact (build_fails_at_unbound_first modes target lms first rest Href Hfirst).
  - intros first rest pre p post Href Hfirst Hsplit.
    destruct (build_succeeds_after_bound_first modes target lms first rest
                Href Hfirst) as [cfg Hcfg].
    destruct (stale_entry_repeats_previous modes target lms mc pre p post cfg
                Hassign Hsplit Hcfg) as (e' & e & H).
    exists cfg, e', e. split; [exact Hcfg|exact H].
Qed.

Lemma rebuild_reuses_mode_str_witness :
  let modes := parse_modes (cs_monitors Samples.two_displays) in
  let target := mode_entry "DP-1"
    (Samples.mode_info "1920x1080@240" 1920 1080 240%float []) in
  build_new_configuration modes target
    (cs_logical_monitors Samples.two_displays_swapped)
    = Raise (UnboundLocalError "mode_str") /\
  exists cfg e' e,
    build_new_configuration modes target
      (cs_logical_monitors Samples.two_displays) = Ok cfg /\
    entries cfg !! 0%nat = Some e' /\ entries cfg !! 1%nat = Some e /\
    mc_connector e' = "DP-1" /\ mc_connector e = "HDMI-1" /\
    mc_mode_id e = mc_mode_id e'.
Proof.
  intros modes target.
  assert (Hne : ci_connector Samples.hdmi1 <> connector target)
    by (vm_compute; discriminate).
  assert (Hnone : current_mode_of modes (ci_connector Samples.hdmi1) = None)
    by reflexivity.
  split.
  - apply (proj1 (proj2 (rebuild_reuses_mode_str modes target
             (cs_logical_monitors Samples.two_displays_swapped)
             Samples.hdmi1 Hne Hnone)) [Samples.dp1]).
    reflexivity.
  - apply (proj2 (proj2 (proj2 (rebuild_reuses_mode_str modes target
             (cs_logical_monitors Samples.two_displays)
             Samples.hdmi1 Hne Hnone))) Samples.dp1 [Samples.hdmi1]
             [] Samples.dp1 []).
    + reflexivity.
    + vm_compute. discriminate.
    + reflexivity.
Defined.

(** C9 as stated fails for a connector that is not the first one
    processed when the first one already leaves [mode_str] unbound:
    HDMI-2 is referenced after HDMI-1, is not the target's connector and
    has no current mode, yet it gets no entry that reuses anything: the
    rebuild has raised at HDMI-1 and nothing is submitted. *)
Lemma stale_connector_without_entry :
  let st := Samples.three_displays in
  let modes := parse_modes (cs_monitors st) in
  let target := mode_entry "DP-1"
    (Samples.mode_info "1920x1080@240" 1920 1080 240%float []) in
  map ci_connector (referenced (cs_logical_monitors st))
    = ["HDMI-1"; "HDMI-2"; "DP-1"] /\
  ci_connector Samples.hdmi2 <> connector target /\
  current_mode_of modes (ci_connector Samples.hdmi2) = None /\
  (exists current, find_current modes = Some current /\
                   select_target modes current 240%float = Some target) /\
  build_new_configuration modes target (cs_logical_monitors st)
    = Raise (UnboundLocalError "mode_str") /\
  (forall cfg, build_new_configuration modes target (cs_logical_monitors st)
               <> Ok cfg) /\
  set_refresh_rate (Samples.service st None) 240%float
    = mkIO [EvGetCurrentState] (Raise (UnboundLocalError "mode_str")).
Proof.
  intros st modes target.
  split; [reflexivity|]. split; [vm_compute; discriminate|].
  split; [reflexivity|]. split; [eexists; split; reflexivity|].
  split; [reflexivity|]. split; [|reflexivity].
  intros cfg H. vm_compute in H. discriminate H.
Qed.

Lemma parse_modes_props (f : Monitor -> pydict) monitors :
  parse_modes (map (fun monitor => with_mon_props (f monitor) monitor) monitors) =
  parse_modes monitors.
Proof.
  unfold parse_modes. generalize (@nil MonitorMode).
  induction monitors as [|monitor rest IH]; intros modes; [reflexivity|].
  cbn [map parse_monitors with_mon_props mon_connector_info mon_mode_list].
  apply IH.
Qed.

(** C7.  Every per-connector entry of a configuration that the set
    operation submits has an empty property map, and the property maps
    of the fetched monitors do not reach the rebuild at all: the parsed
    mode list is the same whatever they hold. *)
Theorem submitted_entries_have_no_properties (svc : Service) (r : float)
    (cfg : list NewLogicalMonitor) :
  In cfg (apply_calls (io_trace (set_refresh_rate svc r))) ->
  Forall (fun e => mc_properties e = []) (entries cfg) /\
  Forall (fun e => tuple_of_monitor_config e =
                   PTuple [PStr (mc_connector e); PStr (mc_mode_id e); PDict []])
         (entries cfg) /\
  (forall st (f : Monitor -> pydict),
     svc_get_current_state svc = inr st ->
     parse_modes (map (fun monitor => with_mon_props (f monitor) monitor)
                      (cs_monitors st)) =
     parse_modes (cs_monitors st)).
Proof.
  intros Hin.
  destruct (set_refresh_rate_submits _ _ _ Hin)
    as (st & current & target & _ & _ & _ & _ & Hb).
  apply build_new_configuration_flat in Hb. destruct Hb as [ms Hb].
  apply build_monitor_configs_inv in Hb. destruct Hb as (_ & Hprops & _).
  split; [exact Hprops|]. split.
  - eapply Forall_impl; [|exact Hprops].
    intros e He. unfold tuple_of_monitor_config. rewrite He. reflexivity.
  - intros st' f _. apply parse_modes_props.
Qed.

Lemma submitted_entries_have_no_properties_witness :
  let cfg :=
    [{| nl_x := 0; nl_y := 0; nl_scale := 1%float; nl_transform := 0;
        nl_is_primary := true;
        nl_monitor_configs :=
          [{| mc_connector := "DP-1"; mc_mode_id := "1920x1080@240";
              mc_properties := [] |}] |}] in
  In cfg (apply_calls
            (io_trace (set_refresh_rate
                         (Samples.service Samples.one_display None) 240%float))) /\
  Forall (fun e => mc_properties e = []) (entries cfg).
Proof.
  intros cfg.
  assert (Hin : In cfg (apply_calls
            (io_trace (set_refresh_rate
                         (Samples.service Samples.one_display None) 240%float))))
    by (vm_compute; left; reflexivity).
  split; [exact Hin|].
  exact (proj1 (submitted_entries_have_no_properties _ _ _ Hin)).
Defined.

(** C10.  In a submitted configuration the logical monitors are the
    fetched ones, in order, with x, y, scale, transform and is_primary
    unchanged; each is a six-component tuple where the fetched one has
    seven, and the fetched property map has no influence on the rebuild. *)
Theorem logical_monitor_fields_carried (svc : Service) (r : float)
    (st : ConfigState) (cfg : list NewLogicalMonitor) :
  svc_get_current_state svc = inr st ->
  In cfg (apply_calls (io_trace (set_refresh_rate svc r))) ->
  Forall2
    (fun lm nl =>
       nl_x nl = lm_x lm /\ nl_y nl = lm_y lm /\ nl_scale nl = lm_scale lm /\
       nl_transform nl = lm_transform lm /\
       nl_is_primary nl = lm_is_primary lm /\
       tuple_length (tuple_of_logical_monitor lm) = Some 7%nat /\
       tuple_length (tuple_of_new_logical_monitor nl) = Some 6%nat)
    (cs_logical_monitors st) cfg /\
  (forall modes target (f : LogicalMonitor -> pydict),
     build_new_configuration modes target
       (map (fun lm => with_lm_props (f lm) lm) (cs_logical_monitors st)) =
     build_new_configuration modes target (cs_logical_monitors st)).
Proof.
  intros Hs Hin.
  destruct (set_refresh_rate_submits _ _ _ Hin)
    as (st' & current & target & Hs' & _ & _ & _ & Hb).
  rewrite Hs in Hs'. injection Hs' as <-.
  split.
  - apply build_new_configuration_Ok in Hb. destruct Hb as [ms Hb].
    apply build_logical_monitors_shape in Hb.
    eapply Forall2_impl; [|exact Hb].
    intros lm nl (Hx & Hy & Hsc & Htr & Hpr & _).
    split; [exact Hx|]. split; [exact Hy|]. split; [exact Hsc|].
    split; [exact Htr|]. split; [exact Hpr|]. split; reflexivity.
  - intros modes target' f. unfold build_new_configuration.
    rewrite build_logical_monitors_props. reflexivity.
Qed.

Lemma logical_monitor_fields_carried_witness :
  let cfg :=
    [{| nl_x := 0; nl_y := 0; nl_scale := 1%float; nl_transform := 0;
        nl_is_primary := true;
        nl_monitor_configs :=
          [{| mc_connector := "DP-1"; mc_mode_id := "1920x1080@240";
              mc_properties := [] |}] |}] in
  Forall2
    (fun lm nl =>
       nl_x nl = lm_x lm /\ nl_y nl = lm_y lm /\ nl_scale nl = lm_scale lm /\
       nl_transform nl = lm_transform lm /\
       nl_is_primary nl = lm_is_primary lm /\
       tuple_length (tuple_of_logical_monitor lm) = Some 7%nat /\
       tuple_length (tuple_of_new_logical_monitor nl) = Some 6%nat)
    (cs_logical_monitors Samples.one_display) cfg.
Proof.
  intros cfg.
  apply (logical_monitor_fields_carried
           (Samples.service Samples.one_display None) 240%float
           Samples.one_display cfg).
  - reflexivity.
  - vm_compute. left. reflexivity.
Defined.

(** ** The command line *)

Lemma print_mode_lines_io modes current_mode :
  exists t r, print_mode_lines modes current_mode = mkIO t (Ok r) /\
              apply_calls t = [].
Proof.
  revert current_mode.
  induction modes as [|m rest IH]; intros current_mode; simpl.
  - exists [], current_mode. split; reflexivity.
  - destruct (IH (if truthy (is_current m) then Some m else current_mode))
      as (t & r & -> & Ht).
    eexists _, r. split; [reflexivity|]. exact Ht.
Qed.

Lemma list_modes_no_apply svc :
  apply_calls (io_trace (list_modes svc)) = [].
Proof.
  unfold list_modes, get_display_config_proxy, get_current_state.
  destruct (svc_proxy svc); [reflexivity|].
  destruct (svc_get_current_state svc) as [msg|st]; [reflexivity|].
  destruct (print_mode_lines_io (parse_modes (cs_monitors st)) None)
    as (t & r & E & Ht).
  cbn. rewrite E. cbn. exact Ht.
Qed.

Lemma get_current_mode_no_apply svc :
  apply_calls (io_trace (get_current_mode svc)) = [].
Proof.
  unfold get_current_mode, get_display_config_proxy, get_current_state.
  destruct (svc_proxy svc); [reflexivity|].
  destruct (svc_get_current_state svc) as [msg|st]; reflexivity.
Qed.

Lemma set_refresh_rate_no_ValueError svc r :
  io_result (set_refresh_rate svc r) <> Raise ValueError.
Proof.
  destruct (set_refresh_rate_cases svc r)
    as [[_ H]|(st & current & target & cfg & Hp & Hs & Hc & Ht & Hy & Hb)];
    [exact H|].
  rewrite (set_refresh_rate_rebuild _ _ _ _ _ Hp Hs Hc Ht Hy), Hb.
  destruct (svc_apply svc (cs_serial st) 1 cfg []); discriminate.
Qed.

Section MainFacts.

Variable float_of_string : string -> option float.

(** A numeric argument: [main] is [set_refresh_rate] with the boolean
    turned into the exit code; its [except ValueError] never fires. *)
Lemma main_numeric svc arg rest r :
  String.eqb arg "--list" = false ->
  String.eqb arg "--current" = false ->
  float_of_string arg = Some r ->
  main float_of_string svc (arg :: rest) =
  mkIO (io_trace (set_refresh_rate svc r))
       (match io_result (set_refresh_rate svc r) with
        | Ok true => Ok 0%Z
        | Ok false => Ok 1%Z
        | Raise e => Raise e
        end).
Proof.
  intros Hl Hc Hf. unfold main, py_float. rewrite Hl, Hc, Hf.
  pose proof (set_refresh_rate_no_ValueError svc r) as Hnv.
  unfold try_except.
  cbn [mbind mret IO_bind IO_ret io_result io_trace app].
  destruct (set_refresh_rate svc r) as [t [[|]|e]];
    cbn [mbind mret IO_bind IO_ret io_result io_trace app];
    rewrite ?app_nil_r; try reflexivity.
  destruct e; try reflexivity. cbn in Hnv. congruence.
Qed.

Lemma main_cases svc args :
  apply_calls (io_trace (main float_of_string svc args)) = [] \/
  exists arg rest r,
    args = arg :: rest /\
    String.eqb arg "--list" = false /\
    String.eqb arg "--current" = false /\
    float_of_string arg = Some r.
Proof.
  destruct args as [|arg rest]; [left; reflexivity|].
  destruct (String.eqb arg "--list") eqn:Hl.
  { left. unfold main. rewrite Hl.
    pose proof (list_modes_no_apply svc) as H.
    destruct (list_modes svc) as [t [m|e]]; cbn in *;
      rewrite ?app_nil_r; exact H. }
  destruct (String.eqb arg "--current") eqn:Hc.
  { left. unfold main. rewrite Hl, Hc.
    pose proof (get_current_mode_no_apply svc) as H.
    destruct (get_current_mode svc) as [t [[m|]|e]]; cbn in *;
      rewrite ?apply_calls_app, ?H; reflexivity. }
  destruct (float_of_string arg) as [r|] eqn:Hf.
  - right. exists arg, rest, r. auto.
  - left. unfold main, py_float. rewrite Hl, Hc, Hf. reflexivity.
Qed.

End MainFacts.

Lemma find_current_split pre current post :
  Forall (fun m => truthy (is_current m) = false) pre ->
  truthy (is_current current) = true ->
  find_current (pre ++ current :: post) = Some current.
Proof.
  intros Hpre Hcur. induction Hpre as [|m pre Hm _ IH]; simpl.
  - rewrite Hcur. reflexivity.
  - rewrite Hm. exact IH.
Qed.

(** C4, as amended.  If the current mode's refresh rate is strictly less
    than 1.0 Hz away from the request and no mode listed before it is
    eligible, target selection returns the current mode itself, nothing
    is submitted, the tool reports that the rate is already set, and the
    process exits with code 0. *)
Theorem already_at_rate (float_of_string : string -> option float)
    (svc : Service) (arg : string) (rest : list string) (r : float)
    (st : ConfigState) (pre post : list MonitorMode) (current : MonitorMode) :
  String.eqb arg "--list" = false ->
  String.eqb arg "--current" = false ->
  float_of_string arg = Some r ->
  svc_proxy svc = None ->
  svc_get_current_state svc = inr st ->
  parse_modes (cs_monitors st) = pre ++ current :: post ->
  Forall (fun m => truthy (is_current m) = false) pre ->
  truthy (is_current current) = true ->
  PrimFloat.ltb (PrimFloat.abs (PrimFloat.sub (refresh current) r)) 1%float = true ->
  Forall (fun m => target_matches current r m = false) pre ->
  find_current (parse_modes (cs_monitors st)) = Some current /\
  select_target (parse_modes (cs_monitors st)) current r = Some current /\
  run_process float_of_string svc (arg :: rest) =
    ([EvGetCurrentState; EvPrint (MsgAlreadyAt r)], Exited 0) /\
  apply_calls (run_process float_of_string svc (arg :: rest)).1 = [] /\
  exit_code (run_process float_of_string svc (arg :: rest)).2 = 0%Z.
Proof.
  intros Hl Hc Hf Hp Hs Hsplit Hpre Hcur Hnear Hearlier.
  assert (Hfind : find_current (parse_modes (cs_monitors st)) = Some current)
    by (rewrite Hsplit; apply find_current_split; assumption).
  assert (Hsel : select_target (parse_modes (cs_monitors st)) current r
                 = Some current).
  { apply select_target_Some. exists pre, post.
    split; [exact Hsplit|]. split; [|exact Hearlier].
    apply target_matches_spec. auto. }
  assert (Hrun : run_process float_of_string svc (arg :: rest) =
                 ([EvGetCurrentState; EvPrint (MsgAlreadyAt r)], Exited 0)).
  { unfold run_process.
    rewrite (main_numeric float_of_string svc arg rest r Hl Hc Hf).
    rewrite (set_refresh_rate_already _ _ _ _ _ Hp Hs Hfind Hsel Hcur).
    reflexivity. }
  rewrite Hrun. repeat split; assumption.
Qed.

Lemma already_at_rate_witness :
  let svc := Samples.service Samples.one_display None in
  let current := mode_entry "DP-1"
    (Samples.mode_info "1920x1080@60" 1920 1080 60%float Samples.current_props) in
  select_target (parse_modes (cs_monitors Samples.one_display)) current 60.4%float
    = Some current /\
  run_process (fun _ => Some 60.4%float) svc ["60.4"] =
    ([EvGetCurrentState; EvPrint (MsgAlreadyAt 60.4%float)], Exited 0).
Proof.
  intros svc current.
  destruct (already_at_rate (fun _ => Some 60.4%float) svc "60.4" []
              60.4%float Samples.one_display []
              [mode_entry "DP-1"
                 (Samples.mode_info "1920x1080@240" 1920 1080 240%float [])]
              current)
    as (_ & Hsel & Hrun & _).
  - reflexivity.
  - reflexivity.
  - reflexivity.
  - reflexivity.
  - reflexivity.
  - reflexivity.
  - constructor.
  - reflexivity.
  - reflexivity.
  - constructor.
  - split; [exact Hsel|exact Hrun].
Defined.

(** C4 as stated fails when an eligible mode is listed before the current
    one: the current 59.94 Hz mode is within 1.0 Hz of a request for
    60 Hz, yet the 60.00 Hz mode listed first is selected and submitted. *)
Lemma earlier_match_preempts_current :
  let st := Samples.ntsc_display in
  let modes := parse_modes (cs_monitors st) in
  exists current target,
    find_current modes = Some current /\
    PrimFloat.ltb (PrimFloat.abs (PrimFloat.sub (refresh current) 60%float)) 1%float
      = true /\
    select_target modes current 60%float = Some target /\
    mode_id current = "1920x1080@59.94" /\
    mode_id target = "1920x1080@60" /\
    run_process (fun _ => Some 60%float) (Samples.service st None) ["60"] =
      ([EvGetCurrentState;
        EvApplyMonitorsConfig 7 1
          [{| nl_x := 0; nl_y := 0; nl_scale := 1%float; nl_transform := 0;
              nl_is_primary := true;
              nl_monitor_configs :=
                [{| mc_connector := "DP-1"; mc_mode_id := "1920x1080@60";
                    mc_properties := [] |}] |}] [];
        EvPrint (MsgRefreshSet 60%float)], Exited 0).
Proof.
  eexists _, _. repeat split; reflexivity.
Qed.

(** C5.  When the apply call is answered with a fault, the fault is
    caught: the trace is the fetch, that one apply call and the printed
    error, nothing is submitted a second time, and the process exits
    with code 1 rather than with a traceback. *)
Theorem apply_fault_reported (float_of_string : string -> option float)
    (svc : Service) (args : list string) (i : nat) (serial method : Z)
    (cfg : list NewLogicalMonitor) (properties : pydict) (msg : string) :
  (run_process float_of_string svc args).1 !! i =
    Some (EvApplyMonitorsConfig serial method cfg properties) ->
  svc_apply svc serial method cfg properties = Some msg ->
  run_process float_of_string svc args =
    ([EvGetCurrentState;
      EvApplyMonitorsConfig serial method cfg properties;
      EvPrint (MsgApplyError (GLibError msg))], Exited 1) /\
  apply_calls (run_process float_of_string svc args).1 = [cfg] /\
  exit_code (run_process float_of_string svc args).2 = 1%Z.
Proof.
  intros Hev Hfault.
  assert (Hrun : run_process float_of_string svc args =
    ([EvGetCurrentState;
      EvApplyMonitorsConfig serial method cfg properties;
      EvPrint (MsgApplyError (GLibError msg))], Exited 1)).
  { unfold run_process in *. cbn [fst] in Hev.
    destruct (main_cases float_of_string svc args)
      as [Hnone|(arg & rest & r & -> & Hl & Hc & Hf)].
    { apply apply_calls_lookup in Hev. rewrite Hnone in Hev. destruct Hev. }
    rewrite (main_numeric float_of_string svc arg rest r Hl Hc Hf) in *.
    cbn [io_trace io_result] in *.
    destruct (set_refresh_rate_cases svc r)
      as [[Hnone _]|(st & current & target & cfg' & Hp & Hs & Hcur & Ht & Hy & Hb)].
    { apply apply_calls_lookup in Hev. rewrite Hnone in Hev. destruct Hev. }
    rewrite (set_refresh_rate_rebuild _ _ _ _ _ Hp Hs Hcur Ht Hy), Hb in *.
    assert (Hcall : EvApplyMonitorsConfig (cs_serial st) 1 cfg' [] =
                    EvApplyMonitorsConfig serial method cfg properties).
    { destruct (svc_apply svc (cs_serial st) 1 cfg' []);
        destruct i as [|[|[|i]]]; cbn in Hev;
        try discriminate Hev; injection Hev as <- <- <- <-; reflexivity. }
    injection Hcall as -> -> -> ->.
    rewrite Hfault. reflexivity. }
  rewrite Hrun. repeat split; reflexivity.
Qed.

Lemma apply_fault_reported_witness :
  let svc := Samples.service Samples.one_display (Some "stale serial") in
  let cfg :=
    [{| nl_x := 0; nl_y := 0; nl_scale := 1%float; nl_transform := 0;
        nl_is_primary := true;
        nl_monitor_configs :=
          [{| mc_connector := "DP-1"; mc_mode_id := "1920x1080@240";
              mc_properties := [] |}] |}] in
  run_process (fun _ => Some 240%float) svc ["240"] =
    ([EvGetCurrentState;
      EvApplyMonitorsConfig 7 1 cfg [];
      EvPrint (MsgApplyError (GLibError "stale serial"))], Exited 1).
Proof.
  intros svc cfg.
  apply (apply_fault_reported (fun _ => Some 240%float) svc ["240"] 1%nat
           7 1 cfg [] "stale serial"); reflexivity.
Defined.

(** The failing rebuild seen from the command line: nothing is
    submitted, and the interpreter ends with a traceback. *)
Example unbound_mode_str_traceback :
  run_process (fun _ => Some 240%float)
    (Samples.service Samples.two_displays_swapped None) ["240"] =
  ([EvGetCurrentState], Traceback (UnboundLocalError "mode_str")).
Proof. reflexivity. Qed.

(** Scenario 1 of the specification, end to end. *)
Example scenario_set_240 :
  run_process (fun _ => Some 240%float)
    (Samples.service Samples.one_display None) ["240"] =
  ([EvGetCurrentState;
    EvApplyMonitorsConfig 7 1
      [{| nl_x := 0; nl_y := 0; nl_scale := 1%float; nl_transform := 0;
          nl_is_primary := true;
          nl_monitor_configs :=
            [{| mc_connector := "DP-1"; mc_mode_id := "1920x1080@240";
                mc_properties := [] |}] |}] [];
    EvPrint (MsgRefreshSet 240%float)], Exited 0).
Proof. reflexivity. Qed.

(** Scenario 2: no 165 Hz mode at the current resolution. *)
Example scenario_mode_not_found :
  run_process (fun _ => Some 165%float)
    (Samples.service Samples.one_display None) ["165"] =
  ([EvGetCurrentState;
    EvPrint (MsgModeNotFound 1920 1080 165%float);
    EvPrint MsgAvailableRates;
    EvPrint (MsgRate 60%float);
    EvPrint (MsgRate 240%float)], Exited 1).
Proof. reflexivity. Qed.

(** * Further properties of the script *)

(** ** Looking up the current mode *)

Lemma find_current_Some modes m :
  find_current modes = Some m <->
  exists pre post,
    modes = pre ++ m :: post /\
    truthy (is_current m) = true /\
    Forall (fun m' => truthy (is_current m') = false) pre.
Proof.
  split.
  - induction modes as [|m0 rest IH]; simpl; [discriminate|].
    destruct (truthy (is_current m0)) eqn:E.
    + intros [= ->]. exists [], rest. repeat split; auto.
    + intros H. destruct (IH H) as (pre & post & -> & Hm & Hpre).
      exists (m0 :: pre), post. repeat split; auto.
  - intros (pre & post & -> & Hm & Hpre). apply find_current_split; assumption.
Qed.

Lemma find_current_None modes :
  find_current modes = None <->
  Forall (fun m => truthy (is_current m) = false) modes.
Proof.
  induction modes as [|m rest IH]; simpl.
  - split; [constructor|reflexivity].
  - destruct (truthy (is_current m)) eqn:E.
    + split; [discriminate|]. intros H. inversion H; congruence.
    + rewrite IH. split; [intros; constructor; assumption|].
      intros H. inversion H; assumption.
Qed.

(** ** What the loops print *)

Lemma print_available_rates_trace modes current :
  print_available_rates modes current =
  mkIO (map (fun m => EvPrint (MsgRate (refresh m)))
            (List.filter (same_resolution current) modes))
       (Ok tt).
Proof.
  induction modes as [|m rest IH]; [reflexivity|].
  cbn [print_available_rates List.filter]. rewrite IH.
  change (Z.eqb (width m) (width current) && Z.eqb (height m) (height current))
    with (same_resolution current m).
  destruct (same_resolution current m); reflexivity.
Qed.

Lemma print_mode_lines_trace modes current_mode :
  print_mode_lines modes current_mode =
  mkIO (map mode_line modes)
       (Ok (match find_current (rev modes) with
            | Some m => Some m
            | None => current_mode
            end)).
Proof.
  revert current_mode.
  induction modes as [|m rest IH]; intros current_mode; [reflexivity|].
  cbn [print_mode_lines]. rewrite IH.
  assert (Hkey :
    match find_current (rev rest ++ [m]) with
    | Some m0 => Some m0
    | None => current_mode
    end =
    match find_current (rev rest) with
    | Some m0 => Some m0
    | None => if truthy (is_current m) then Some m else current_mode
    end).
  { destruct (find_current (rev rest)) as [m'|] eqn:E.
    - apply find_current_Some in E. destruct E as (pre & post & -> & Hm & Hpre).
      rewrite <- app_assoc, <- app_comm_cons.
      rewrite find_current_split by assumption. reflexivity.
    - apply find_current_None in E.
      destruct (truthy (is_current m)) eqn:Em.
      + rewrite (find_current_split (rev rest) m []) by assumption. reflexivity.
      + assert (H : find_current (rev rest ++ [m]) = None).
        { apply find_current_None. apply Forall_app. split; [exact E|].
          constructor; [exact Em|constructor]. }
        rewrite H. reflexivity. }
  cbn [rev]. rewrite Hkey. reflexivity.
Qed.

Lemma service_calls_app t1 t2 :
  service_calls (t1 ++ t2) = service_calls t1 ++ service_calls t2.
Proof. apply List.filter_app. Qed.

Lemma service_calls_prints {A} (f : A -> message) (l : list A) :
  service_calls (map (fun a => EvPrint (f a)) l) = [].
Proof. induction l as [|a l IH]; [reflexivity|exact IH]. Qed.

Lemma service_calls_mode_lines modes :
  service_calls (map mode_line modes) = [].
Proof. induction modes as [|m rest IH]; [reflexivity|exact IH]. Qed.

(** ** The read-only commands *)

Lemma list_modes_run svc st :
  svc_proxy svc = None ->
  svc_get_current_state svc = inr st ->
  list_modes svc =
  mkIO (EvGetCurrentState :: EvPrint MsgAvailableModes ::
        map mode_line (parse_modes (cs_monitors st)))
       (Ok (find_current (rev (parse_modes (cs_monitors st))))).
Proof.
  intros Hp Hs. unfold list_modes, get_display_config_proxy, get_current_state.
  rewrite Hp, Hs. cbn. rewrite print_mode_lines_trace. cbn.
  destruct (find_current (rev (parse_modes (cs_monitors st)))); reflexivity.
Qed.

Lemma get_current_mode_run svc st :
  svc_proxy svc = None ->
  svc_get_current_state svc = inr st ->
  get_current_mode svc =
  mkIO [EvGetCurrentState] (Ok (find_current (parse_modes (cs_monitors st)))).
Proof.
  intros Hp Hs. unfold get_current_mode, get_display_config_proxy, get_current_state.
  rewrite Hp, Hs. reflexivity.
Qed.

Lemma parse_modes_length monitors :
  length (parse_modes monitors) =
  list_sum (map (fun monitor => length (mon_mode_list monitor)) monitors).
Proof.
  unfold parse_modes. rewrite parse_monitors_app. cbn [app].
  induction monitors as [|monitor ms IH]; [reflexivity|].
  cbn [flat_map map list_sum]. rewrite length_app, length_map, IH. reflexivity.
Qed.

(** X1.  [--list] prints the header and then exactly one line per parsed
    mode, in catalogue order, and exits with code 0, whatever the modes
    are (also when there is none). *)
Theorem list_command_output (float_of_string : string -> option float)
    (svc : Service) (rest : list string) (st : ConfigState) :
  svc_proxy svc = None ->
  svc_get_current_state svc = inr st ->
  run_process float_of_string svc ("--list" :: rest) =
    (EvGetCurrentState :: EvPrint MsgAvailableModes ::
     map mode_line (parse_modes (cs_monitors st)), Exited 0) /\
  length (run_process float_of_string svc ("--list" :: rest)).1 =
    (2 + list_sum (map (fun monitor => length (mon_mode_list monitor))
                       (cs_monitors st)))%nat.
Proof.
  intros Hp Hs.
  assert (Hrun : run_process float_of_string svc ("--list" :: rest) =
    (EvGetCurrentState :: EvPrint MsgAvailableModes ::
     map mode_line (parse_modes (cs_monitors st)), Exited 0)).
  { unfold run_process, main. cbn [String.eqb Ascii.eqb Bool.eqb].
    rewrite (list_modes_run svc st Hp Hs). cbn. rewrite app_nil_r. reflexivity. }
  split; [exact Hrun|]. rewrite Hrun. cbn [fst length].
  rewrite length_map, parse_modes_length. reflexivity.
Qed.

Lemma list_command_output_witness :
  run_process (fun _ => None) (Samples.service Samples.one_display None) ["--list"] =
    ([EvGetCurrentState; EvPrint MsgAvailableModes;
      EvPrint (MsgModeLine "DP-1" 1920 1080 60%float " (current)");
      EvPrint (MsgModeLine "DP-1" 1920 1080 240%float "")], Exited 0).
Proof.
  apply (list_command_output (fun _ => None)
           (Samples.service Samples.one_display None) [] Samples.one_display);
    reflexivity.
Defined.

(** X2.  [--list] and [--current] never call ApplyMonitorsConfig, and
    whenever the service answers the fetch they exit with code 0, also
    when no mode is flagged current. *)
Theorem read_only_commands (float_of_string : string -> option float)
    (svc : Service) (arg : string) (rest : list string) :
  arg = "--list" \/ arg = "--current" ->
  apply_calls (run_process float_of_string svc (arg :: rest)).1 = [] /\
  (forall st,
     svc_proxy svc = None ->
     svc_get_current_state svc = inr st ->
     (run_process float_of_string svc (arg :: rest)).2 = Exited 0).
Proof.
  intros [-> | ->].
  - split.
    + unfold run_process, main. cbn [String.eqb Ascii.eqb Bool.eqb fst].
      pose proof (list_modes_no_apply svc) as H.
      destruct (list_modes svc) as [t [m|e]]; cbn in *;
        rewrite ?app_nil_r; exact H.
    + intros st Hp Hs. unfold run_process, main.
      cbn [String.eqb Ascii.eqb Bool.eqb snd].
      rewrite (list_modes_run svc st Hp Hs). reflexivity.
  - split.
    + unfold run_process, main. cbn [String.eqb Ascii.eqb Bool.eqb fst].
      pose proof (get_current_mode_no_apply svc) as H.
      destruct (get_current_mode svc) as [t [[m|]|e]]; cbn in *;
        rewrite ?apply_calls_app, ?H; reflexivity.
    + intros st Hp Hs. unfold run_process, main.
      cbn [String.eqb Ascii.eqb Bool.eqb snd].
      rewrite (get_current_mode_run svc st Hp Hs).
      destruct (find_current (parse_modes (cs_monitors st))); reflexivity.
Qed.

Lemma read_only_commands_witness :
  apply_calls
    (run_process (fun _ => None)
       (Samples.service (Samples.state [Samples.hdmi1_monitor] []) None)
       ["--current"]).1 = [] /\
  (run_process (fun _ => None)
     (Samples.service (Samples.state [Samples.hdmi1_monitor] []) None)
     ["--current"]).2 = Exited 0.
Proof.
  destruct (read_only_commands (fun _ => None)
              (Samples.service (Samples.state [Samples.hdmi1_monitor] []) None)
              "--current" []) as [Hcalls Hexit].
  - right. reflexivity.
  - split; [exact Hcalls|].
    apply (Hexit (Samples.state [Samples.hdmi1_monitor] [])); reflexivity.
Defined.

Lemma filter_nil_Forall {A} (f : A -> bool) (l : list A) :
  List.filter f l = [] -> Forall (fun a => f a = false) l.
Proof.
  induction l as [|a l IH]; simpl; [constructor|].
  destruct (f a) eqn:E; [discriminate|]. intros H. constructor; auto.
Qed.

Lemma find_current_rev_unique modes :
  (length (List.filter (fun m => truthy (is_current m)) modes) <= 1)%nat ->
  find_current (rev modes) = find_current modes.
Proof.
  intros Hone. destruct (find_current modes) as [m|] eqn:E.
  - apply find_current_Some in E. destruct E as (pre & post & -> & Hm & Hpre).
    rewrite List.filter_app in Hone. cbn [List.filter] in Hone.
    rewrite Hm, length_app in Hone. cbn [length] in Hone.
    assert (Hpost : List.filter (fun m => truthy (is_current m)) post = []).
    { destruct (List.filter _ post); [reflexivity|]. cbn [length] in Hone. lia. }
    apply filter_nil_Forall in Hpost.
    rewrite rev_app_distr. cbn [rev]. rewrite <- app_assoc. cbn [app].
    apply find_current_split; [|exact Hm].
    apply Forall_rev. exact Hpost.
  - apply find_current_None. apply Forall_rev.
    apply find_current_None. exact E.
Qed.

(** X3.  [list_modes] returns the last mode flagged current and
    [get_current_mode] the first; the two agree whenever at most one
    parsed mode is flagged current. *)
Theorem list_modes_agrees_with_get_current_mode (svc : Service)
    (st : ConfigState) :
  svc_proxy svc = None ->
  svc_get_current_state svc = inr st ->
  io_result (list_modes svc) =
    Ok (find_current (rev (parse_modes (cs_monitors st)))) /\
  io_result (get_current_mode svc) =
    Ok (find_current (parse_modes (cs_monitors st))) /\
  ((length (List.filter (fun m => truthy (is_current m))
                        (parse_modes (cs_monitors st))) <= 1)%nat ->
   io_result (list_modes svc) = io_result (get_current_mode svc)).
Proof.
  intros Hp Hs.
  rewrite (list_modes_run svc st Hp Hs), (get_current_mode_run svc st Hp Hs).
  cbn [io_result]. split; [reflexivity|]. split; [reflexivity|].
  intros Hone. rewrite find_current_rev_unique by exact Hone. reflexivity.
Qed.

Lemma list_modes_agrees_with_get_current_mode_witness :
  io_result (list_modes (Samples.service Samples.two_active_displays None)) =
    Ok (Some (mode_entry "HDMI-1"
                (Samples.mode_info "3840x2160@60" 3840 2160 60%float
                   [("is-current", PBool true)]))) /\
  io_result (get_current_mode (Samples.service Samples.two_active_displays None)) =
    Ok (Some (mode_entry "DP-1"
                (Samples.mode_info "1920x1080@60" 1920 1080 60%float
                   Samples.current_props))).
Proof.
  destruct (list_modes_agrees_with_get_current_mode
              (Samples.service Samples.two_active_displays None)
              Samples.two_active_displays) as (Hl & Hg & _).
  - reflexivity.
  - reflexivity.
  - split; [exact Hl|exact Hg].
Defined.

(** ** The failure paths of the set operation *)

Lemma set_refresh_rate_proxy_fault svc r msg :
  svc_proxy svc = Some msg ->
  set_refresh_rate svc r = mkIO [] (Raise (GLibError msg)).
Proof.
  intros Hp. unfold set_refresh_rate, get_display_config_proxy.
  rewrite Hp. reflexivity.
Qed.

Lemma set_refresh_rate_fetch_fault svc r msg :
  svc_proxy svc = None ->
  svc_get_current_state svc = inl msg ->
  set_refresh_rate svc r = mkIO [EvGetCurrentState] (Raise (GLibError msg)).
Proof.
  intros Hp Hs. unfold set_refresh_rate, get_display_config_proxy, get_current_state.
  rewrite Hp, Hs. reflexivity.
Qed.

Lemma set_refresh_rate_no_current svc r st :
  svc_proxy svc = None ->
  svc_get_current_state svc = inr st ->
  find_current (parse_modes (cs_monitors st)) = None ->
  set_refresh_rate svc r =
  mkIO [EvGetCurrentState; EvPrint MsgNoCurrentMode] (Ok false).
Proof.
  intros Hp Hs Hc. unfold set_refresh_rate, get_display_config_proxy, get_current_state.
  rewrite Hp, Hs. cbn. rewrite Hc. reflexivity.
Qed.

Lemma set_refresh_rate_not_found svc r st current :
  svc_proxy svc = None ->
  svc_get_current_state svc = inr st ->
  find_current (parse_modes (cs_monitors st)) = Some current ->
  select_target (parse_modes (cs_monitors st)) current r = None ->
  set_refresh_rate svc r =
  mkIO (EvGetCurrentState ::
        EvPrint (MsgModeNotFound (width current) (height current) r) ::
        EvPrint MsgAvailableRates ::
        map (fun m => EvPrint (MsgRate (refresh m)))
            (List.filter (same_resolution current) (parse_modes (cs_monitors st))))
       (Ok false).
Proof.
  intros Hp Hs Hc Ht.
  unfold set_refresh_rate, get_display_config_proxy, get_current_state.
  rewrite Hp, Hs. cbn. rewrite Hc, Ht, print_available_rates_trace.
  cbn. rewrite app_nil_r. reflexivity.
Qed.

(** X4.  When no parsed mode is flagged current (in particular when the
    service lists no monitor at all) a set request prints the
    no-current-mode error, submits nothing and exits with code 1. *)
Theorem no_current_mode_fails (float_of_string : string -> option float)
    (svc : Service) (arg : string) (rest : list string) (r : float)
    (st : ConfigState) :
  String.eqb arg "--list" = false ->
  String.eqb arg "--current" = false ->
  float_of_string arg = Some r ->
  svc_proxy svc = None ->
  svc_get_current_state svc = inr st ->
  Forall (fun m => truthy (is_current m) = false) (parse_modes (cs_monitors st)) ->
  run_process float_of_string svc (arg :: rest) =
    ([EvGetCurrentState; EvPrint MsgNoCurrentMode], Exited 1).
Proof.
  intros Hl Hc Hf Hp Hs Hnone. apply find_current_None in Hnone.
  unfold run_process. rewrite (main_numeric float_of_string svc arg rest r Hl Hc Hf).
  rewrite (set_refresh_rate_no_current svc r st Hp Hs Hnone). reflexivity.
Qed.

Lemma no_current_mode_fails_witness :
  run_process (fun _ => Some 60%float)
    (Samples.service (Samples.state [] []) None) ["60"] =
    ([EvGetCurrentState; EvPrint MsgNoCurrentMode], Exited 1).
Proof.
  apply (no_current_mode_fails (fun _ => Some 60%float)
           (Samples.service (Samples.state [] []) None) "60" [] 60%float
           (Samples.state [] [])); try reflexivity.
  constructor.
Defined.

(** X5.  When no mode matches the request, the tool prints the error,
    then one rate line for every parsed mode at the current resolution,
    in order and on every connector; the current mode's own rate is
    always among them; nothing is submitted and the exit code is 1. *)
Theorem mode_not_found_report (float_of_string : string -> option float)
    (svc : Service) (arg : string) (rest : list string) (r : float)
    (st : ConfigState) (current : MonitorMode) :
  String.eqb arg "--list" = false ->
  String.eqb arg "--current" = false ->
  float_of_string arg = Some r ->
  svc_proxy svc = None ->
  svc_get_current_state svc = inr st ->
  find_current (parse_modes (cs_monitors st)) = Some current ->
  Forall (fun m => target_matches current r m = false)
         (parse_modes (cs_monitors st)) ->
  run_process float_of_string svc (arg :: rest) =
    (EvGetCurrentState ::
     EvPrint (MsgModeNotFound (width current) (height current) r) ::
     EvPrint MsgAvailableRates ::
     map (fun m => EvPrint (MsgRate (refresh m)))
         (List.filter (same_resolution current) (parse_modes (cs_monitors st))),
     Exited 1) /\
  In (EvPrint (MsgRate (refresh current)))
     (run_process float_of_string svc (arg :: rest)).1.
Proof.
  intros Hl Hc Hf Hp Hs Hcur Hnone. apply select_target_None in Hnone.
  assert (Hrun : run_process float_of_string svc (arg :: rest) =
    (EvGetCurrentState ::
     EvPrint (MsgModeNotFound (width current) (height current) r) ::
     EvPrint MsgAvailableRates ::
     map (fun m => EvPrint (MsgRate (refresh m)))
         (List.filter (same_resolution current) (parse_modes (cs_monitors st))),
     Exited 1)).
  { unfold run_process.
    rewrite (main_numeric float_of_string svc arg rest r Hl Hc Hf).
    rewrite (set_refresh_rate_not_found svc r st current Hp Hs Hcur Hnone).
    reflexivity. }
  split; [exact Hrun|]. rewrite Hrun. cbn [fst].
  right. right. right.
  apply (in_map (fun m => EvPrint (MsgRate (refresh m)))).
  apply List.filter_In. split.
  - apply find_current_Some in Hcur. destruct Hcur as (pre & post & -> & _).
    apply in_elt.
  - unfold same_resolution. rewrite !Z.eqb_refl. reflexivity.
Qed.

Lemma mode_not_found_report_witness :
  run_process (fun _ => Some 165%float)
    (Samples.service Samples.two_active_displays None) ["165"] =
    ([EvGetCurrentState;
      EvPrint (MsgModeNotFound 1920 1080 165%float);
      EvPrint MsgAvailableRates;
      EvPrint (MsgRate 60%float);
      EvPrint (MsgRate 240%float)], Exited 1).
Proof.
  apply (mode_not_found_report (fun _ => Some 165%float)
           (Samples.service Samples.two_active_displays None) "165" []
           165%float Samples.two_active_displays
           (mode_entry "DP-1"
              (Samples.mode_info "1920x1080@60" 1920 1080 60%float
                 Samples.current_props))); try reflexivity.
  repeat constructor.
Defined.

(** X6.  A fault while connecting to the service or while fetching the
    state is caught nowhere: for [--list], [--current] and a numeric
    argument alike the process ends with a traceback carrying that
    fault, having printed and submitted nothing. *)
Theorem fetch_fault_is_uncaught (float_of_string : string -> option float)
    (svc : Service) (arg : string) (rest : list string) (msg : string) :
  arg = "--list" \/ arg = "--current" \/ float_of_string arg <> None ->
  (svc_proxy svc = Some msg ->
   run_process float_of_string svc (arg :: rest) =
     ([], Traceback (GLibError msg))) /\
  (svc_proxy svc = None -> svc_get_current_state svc = inl msg ->
   run_process float_of_string svc (arg :: rest) =
     ([EvGetCurrentState], Traceback (GLibError msg))).
Proof.
  intros Harg.
  destruct (String.eqb_spec arg "--list") as [->|Hl].
  { split; [intros Hp|intros Hp Hs]; unfold run_process, main, list_modes,
      get_display_config_proxy, get_current_state;
      cbn [String.eqb Ascii.eqb Bool.eqb]; rewrite Hp, ?Hs; reflexivity. }
  destruct (String.eqb_spec arg "--current") as [->|Hc].
  { split; [intros Hp|intros Hp Hs]; unfold run_process, main, get_current_mode,
      get_display_config_proxy, get_current_state;
      cbn [String.eqb Ascii.eqb Bool.eqb]; rewrite Hp, ?Hs; reflexivity. }
  destruct Harg as [E|[E|Hf]]; [contradiction|contradiction|].
  destruct (float_of_string arg) as [r|] eqn:Hr; [|contradiction].
  apply String.eqb_neq in Hl, Hc.
  split; [intros Hp|intros Hp Hs]; unfold run_process;
    rewrite (main_numeric float_of_string svc arg rest r Hl Hc Hr).
  - rewrite (set_refresh_rate_proxy_fault svc r msg Hp). reflexivity.
  - rewrite (set_refresh_rate_fetch_fault svc r msg Hp Hs). reflexivity.
Qed.

Lemma fetch_fault_is_uncaught_witness :
  run_process (fun _ => Some 240%float)
    {| svc_proxy := None; svc_get_current_state := inl "timeout";
       svc_apply := fun _ _ _ _ => None |} ["240"] =
    ([EvGetCurrentState], Traceback (GLibError "timeout")).
Proof.
  apply (fetch_fault_is_uncaught (fun _ => Some 240%float) _ "240" [] "timeout").
  - right. right. discriminate.
  - reflexivity.
  - reflexivity.
Defined.

(** ** Exit codes and the conversation with the service *)

(** X7.  Without an argument, or with a first argument that is neither
    a flag nor a number, the process prints its usage text and exits
    with code 1 without ever contacting the service. *)
Theorem bad_invocation_is_offline (float_of_string : string -> option float)
    (svc : Service) (arg : string) (rest : list string) :
  run_process float_of_string svc [] = ([EvPrint MsgUsage], Exited 1) /\
  (String.eqb arg "--list" = false ->
   String.eqb arg "--current" = false ->
   float_of_string arg = None ->
   run_process float_of_string svc (arg :: rest) =
     ([EvPrint (MsgInvalidArgument arg); EvPrint MsgUsage], Exited 1) /\
   service_calls (run_process float_of_string svc (arg :: rest)).1 = []).
Proof.
  split; [reflexivity|]. intros Hl Hc Hf.
  assert (Hrun : run_process float_of_string svc (arg :: rest) =
            ([EvPrint (MsgInvalidArgument arg); EvPrint MsgUsage], Exited 1)).
  { unfold run_process, main, py_float. rewrite Hl, Hc, Hf. reflexivity. }
  rewrite Hrun. split; reflexivity.
Qed.

Lemma bad_invocation_is_offline_witness :
  run_process (fun _ => None) (Samples.service Samples.one_display None)
    ["fast"; "240"] =
    ([EvPrint (MsgInvalidArgument "fast"); EvPrint MsgUsage], Exited 1).
Proof.
  apply (proj2 (bad_invocation_is_offline (fun _ => None)
                  (Samples.service Samples.one_display None) "fast" ["240"]));
    reflexivity.
Defined.

(** X8.  Whatever the arguments and whatever the service does, the
    process exit code is 0 or 1. *)
Theorem exit_code_is_0_or_1 (float_of_string : string -> option float)
    (svc : Service) (args : list string) :
  exit_code (run_process float_of_string svc args).2 = 0%Z \/
  exit_code (run_process float_of_string svc args).2 = 1%Z.
Proof.
  unfold run_process. cbn [snd].
  destruct args as [|arg rest]; [right; reflexivity|].
  unfold main.
  destruct (String.eqb arg "--list").
  { destruct (list_modes svc) as [t [m|e]]; cbn; auto. }
  destruct (String.eqb arg "--current").
  { destruct (get_current_mode svc) as [t [[m|]|e]]; cbn; auto. }
  unfold py_float, try_except.
  destruct (float_of_string arg) as [r|]; [|right; reflexivity].
  cbn [mbind mret IO_bind IO_ret io_result io_trace app].
  destruct (set_refresh_rate svc r) as [t [[|]|e]]; cbn; auto.
  destruct e; cbn; auto.
Qed.

Lemma set_refresh_rate_service_calls svc r :
  service_calls (io_trace (set_refresh_rate svc r)) = [] \/
  service_calls (io_trace (set_refresh_rate svc r)) = [EvGetCurrentState] \/
  exists st cfg,
    svc_get_current_state svc = inr st /\
    service_calls (io_trace (set_refresh_rate svc r)) =
      [EvGetCurrentState; EvApplyMonitorsConfig (cs_serial st) 1 cfg []].
Proof.
  destruct (svc_proxy svc) as [msg|] eqn:Hp.
  { left. rewrite (set_refresh_rate_proxy_fault svc r msg Hp). reflexivity. }
  destruct (svc_get_current_state svc) as [msg|st] eqn:Hs.
  { right. left. rewrite (set_refresh_rate_fetch_fault svc r msg Hp Hs).
    reflexivity. }
  destruct (find_current (parse_modes (cs_monitors st))) as [current|] eqn:Hc.
  2:{ right. left. rewrite (set_refresh_rate_no_current svc r st Hp Hs Hc).
      reflexivity. }
  destruct (select_target (parse_modes (cs_monitors st)) current r)
    as [target|] eqn:Ht.
  2:{ right. left. rewrite (set_refresh_rate_not_found svc r st current Hp Hs Hc Ht).
      cbn [io_trace]. unfold service_calls. cbn [List.filter is_print negb].
      f_equal. apply (service_calls_prints (fun m => MsgRate (refresh m))). }
  destruct (truthy (is_current target)) eqn:Hy.
  { right. left. rewrite (set_refresh_rate_already _ _ _ _ _ Hp Hs Hc Ht Hy).
    reflexivity. }
  rewrite (set_refresh_rate_rebuild _ _ _ _ _ Hp Hs Hc Ht Hy).
  destruct (build_new_configuration (parse_modes (cs_monitors st)) target
              (cs_logical_monitors st)) as [cfg|e].
  - right. right. exists st, cfg. split; [reflexivity|].
    destruct (svc_apply svc (cs_serial st) 1 cfg []); reflexivity.
  - right. left. reflexivity.
Qed.

(** X9.  Every run talks to the service at most twice: at most one
    GetCurrentState and, only after it, at most one ApplyMonitorsConfig,
    which echoes the fetched serial, uses method 1 (persistent) and
    passes an empty global property map. *)
Theorem service_conversation (float_of_string : string -> option float)
    (svc : Service) (args : list string) :
  service_calls (run_process float_of_string svc args).1 = [] \/
  service_calls (run_process float_of_string svc args).1 = [EvGetCurrentState] \/
  exists st cfg,
    svc_get_current_state svc = inr st /\
    service_calls (run_process float_of_string svc args).1 =
      [EvGetCurrentState; EvApplyMonitorsConfig (cs_serial st) 1 cfg []].
Proof.
  unfold run_process. cbn [fst].
  destruct args as [|arg rest]; [left; reflexivity|].
  destruct (String.eqb arg "--list") eqn:Hl.
  { unfold main. rewrite Hl.
    destruct (svc_proxy svc) as [msg|] eqn:Hp.
    { left. unfold list_modes, get_display_config_proxy. rewrite Hp. reflexivity. }
    destruct (svc_get_current_state svc) as [msg|st] eqn:Hs.
    { right. left. unfold list_modes, get_display_config_proxy, get_current_state.
      rewrite Hp, Hs. reflexivity. }
    right. left. rewrite (list_modes_run svc st Hp Hs).
    cbn [mbind mret IO_bind IO_ret io_result io_trace].
    rewrite app_nil_r. unfold service_calls. cbn [List.filter is_print negb].
    f_equal. apply service_calls_mode_lines. }
  destruct (String.eqb arg "--current") eqn:Hc.
  { unfold main. rewrite Hl, Hc.
    destruct (svc_proxy svc) as [msg|] eqn:Hp.
    { left. unfold get_current_mode, get_display_config_proxy. rewrite Hp.
      reflexivity. }
    destruct (svc_get_current_state svc) as [msg|st] eqn:Hs.
    { right. left.
      unfold get_current_mode, get_display_config_proxy, get_current_state.
      rewrite Hp, Hs. reflexivity. }
    right. left. rewrite (get_current_mode_run svc st Hp Hs).
    destruct (find_current (parse_modes (cs_monitors st))); reflexivity. }
  destruct (float_of_string arg) as [r|] eqn:Hf.
  - rewrite (main_numeric float_of_string svc arg rest r Hl Hc Hf).
    cbn [io_trace]. apply set_refresh_rate_service_calls.
  - left. unfold main, py_float. rewrite Hl, Hc, Hf. reflexivity.
Qed.

(** X10.  A set request exits with code 0 in exactly two situations:
    the selected target is already flagged current, or the rebuilt
    configuration was produced and the service accepted it. *)
Theorem set_exit_zero_iff (float_of_string : string -> option float)
    (svc : Service) (arg : string) (rest : list string) (r : float) :
  String.eqb arg "--list" = false ->
  String.eqb arg "--current" = false ->
  float_of_string arg = Some r ->
  ((run_process float_of_string svc (arg :: rest)).2 = Exited 0 <->
   exists st current target,
     svc_proxy svc = None /\
     svc_get_current_state svc = inr st /\
     find_current (parse_modes (cs_monitors st)) = Some current /\
     select_target (parse_modes (cs_monitors st)) current r = Some target /\
     (truthy (is_current target) = true \/
      exists cfg,
        build_new_configuration (parse_modes (cs_monitors st)) target
          (cs_logical_monitors st) = Ok cfg /\
        svc_apply svc (cs_serial st) 1 cfg [] = None)).
Proof.
  intros Hl Hc Hf. unfold run_process. cbn [snd].
  rewrite (main_numeric float_of_string svc arg rest r Hl Hc Hf). cbn [io_result].
  split.
  - destruct (svc_proxy svc) as [msg|] eqn:Hp.
    { rewrite (set_refresh_rate_proxy_fault svc r msg Hp). discriminate. }
    destruct (svc_get_current_state svc) as [msg|st] eqn:Hs.
    { rewrite (set_refresh_rate_fetch_fault svc r msg Hp Hs). discriminate. }
    destruct (find_current (parse_modes (cs_monitors st))) as [current|] eqn:Hcur.
    2:{ rewrite (set_refresh_rate_no_current svc r st Hp Hs Hcur). discriminate. }
    destruct (select_target (parse_modes (cs_monitors st)) current r)
      as [target|] eqn:Ht.
    2:{ rewrite (set_refresh_rate_not_found svc r st current Hp Hs Hcur Ht).
        discriminate. }
    intros H. exists st, current, target.
    split; [reflexivity|]. split; [reflexivity|]. split; [exact Hcur|].
    split; [exact Ht|].
    destruct (truthy (is_current target)) eqn:Hy; [left; reflexivity|right].
    rewrite (set_refresh_rate_rebuild _ _ _ _ _ Hp Hs Hcur Ht Hy) in H.
    destruct (build_new_configuration (parse_modes (cs_monitors st)) target
                (cs_logical_monitors st)) as [cfg|e]; [|discriminate H].
    exists cfg. split; [reflexivity|].
    destruct (svc_apply svc (cs_serial st) 1 cfg []); [discriminate H|reflexivity].
  - intros (st & current & target & Hp & Hs & Hcur & Ht & Hcase).
    destruct (truthy (is_current target)) eqn:Hy.
    + rewrite (set_refresh_rate_already _ _ _ _ _ Hp Hs Hcur Ht Hy). reflexivity.
    + destruct Hcase as [Hyes|(cfg & Hb & Hok)]; [discriminate Hyes|].
      rewrite (set_refresh_rate_rebuild _ _ _ _ _ Hp Hs Hcur Ht Hy), Hb, Hok.
      reflexivity.
Qed.

Lemma set_exit_zero_iff_witness :
  (run_process (fun _ => Some 240%float)
     (Samples.service Samples.one_display None) ["240"]).2 = Exited 0.
Proof.
  apply (set_exit_zero_iff (fun _ => Some 240%float)
           (Samples.service Samples.one_display None)
           "240" [] 240%float eq_refl eq_refl eq_refl).
  eexists _, _, _. split; [reflexivity|]. split; [reflexivity|].
  split; [reflexivity|]. split; [reflexivity|].
  right. eexists. split; reflexivity.
Defined.

(** ** More on the rebuilt configuration *)

Lemma Forall2_map_eq {A B C} (f : A -> C) (g : B -> C) (l : list A) (l' : list B) :
  Forall2 (fun a b => g b = f a) l l' -> map g l' = map f l.
Proof.
  induction 1 as [|a b l l' H _ IH]; [reflexivity|].
  simpl. rewrite H, IH. reflexivity.
Qed.

(** X11.  Every configuration the set operation submits names, logical
    monitor by logical monitor and in order, exactly the connectors of
    the fetched logical monitors: none is dropped, added or moved, also
    when some connector has no current mode. *)
Theorem submitted_connectors (svc : Service) (r : float) (st : ConfigState)
    (cfg : list NewLogicalMonitor) :
  svc_get_current_state svc = inr st ->
  In cfg (apply_calls (io_trace (set_refresh_rate svc r))) ->
  map (fun nl => map mc_connector (nl_monitor_configs nl)) cfg =
    map (fun lm => map ci_connector (lm_monitor_configs lm))
        (cs_logical_monitors st) /\
  map mc_connector (entries cfg) =
    map ci_connector (referenced (cs_logical_monitors st)).
Proof.
  intros Hs Hin.
  destruct (set_refresh_rate_submits _ _ _ Hin)
    as (st' & current & target & Hs' & _ & _ & _ & Hb).
  rewrite Hs in Hs'. injection Hs' as <-.
  split.
  - apply build_new_configuration_Ok in Hb. destruct Hb as [ms Hb].
    apply build_logical_monitors_shape in Hb.
    apply (Forall2_map_eq
             (fun lm => map ci_connector (lm_monitor_configs lm))
             (fun nl => map mc_connector (nl_monitor_configs nl))).
    eapply Forall2_impl; [|exact Hb].
    intros lm nl (_ & _ & _ & _ & _ & H). exact H.
  - apply build_new_configuration_flat in Hb. destruct Hb as [ms Hb].
    apply build_monitor_configs_inv in Hb. tauto.
Qed.

Lemma submitted_connectors_witness :
  let cfg :=
    [{| nl_x := 0; nl_y := 0; nl_scale := 1%float; nl_transform := 0;
        nl_is_primary := true;
        nl_monitor_configs :=
          [{| mc_connector := "DP-1"; mc_mode_id := "1920x1080@240";
              mc_properties := [] |}] |};
     {| nl_x := 1920; nl_y := 0; nl_scale := 1%float; nl_transform := 0;
        nl_is_primary := false;
        nl_monitor_configs :=
          [{| mc_connector := "HDMI-1"; mc_mode_id := "1920x1080@240";
              mc_properties := [] |}] |}] in
  map mc_connector (entries cfg) =
    map ci_connector (referenced (cs_logical_monitors Samples.two_displays)).
Proof.
  intros cfg.
  apply (submitted_connectors (Samples.service Samples.two_displays None)
           240%float Samples.two_displays cfg eq_refl).
  vm_compute. left. reflexivity.
Defined.

Lemma current_mode_of_Some modes connector0 m :
  current_mode_of modes connector0 = Some m ->
  In m modes /\ connector m = connector0 /\ truthy (is_current m) = true.
Proof.
  unfold current_mode_of. intros H. apply find_some in H.
  destruct H as [Hin H]. apply andb_true_iff in H. destruct H as [Hc Hy].
  apply String.eqb_eq in Hc. auto.
Qed.

Lemma build_monitor_configs_provenance modes target mcs mode_str mode_str' out :
  In target modes ->
  (forall s, mode_str = Some s -> mode_id_provenance modes target s) ->
  build_monitor_configs modes target mcs mode_str [] = Ok (mode_str', out) ->
  Forall (fun e =>
            mode_id_provenance modes target (mc_mode_id e) /\
            (mc_connector e = connector target -> mc_mode_id e = mode_id target))
         out.
Proof.
  intros Htarget. revert mode_str mode_str' out.
  induction mcs as [|mc rest IH]; intros mode_str mode_str' out Hms.
  - intros [= <- <-]. constructor.
  - rewrite build_monitor_configs_cons. cbv zeta.
    destruct (assign_mode_str modes target mc mode_str) as [s|] eqn:Ea;
      cbn [read_mode_str mbind result_bind]; [|discriminate].
    destruct (build_monitor_configs modes target rest (Some s) [])
      as [[ms out']|e'] eqn:E; cbn [fmap result_fmap fst snd]; [|discriminate].
    intros [= <- <-].
    assert (Hs : mode_id_provenance modes target s /\
                 (ci_connector mc = connector target -> s = mode_id target)).
    { destruct (String.eqb_spec (ci_connector mc) (connector target)) as [Ec|Ec].
      - rewrite assign_mode_str_target in Ea by exact Ec. injection Ea as <-.
        split; [|reflexivity]. exists target. auto.
      - split; [|contradiction].
        rewrite assign_mode_str_other in Ea by exact Ec.
        destruct (current_mode_of modes (ci_connector mc)) as [m|] eqn:Em.
        + injection Ea as <-. apply current_mode_of_Some in Em.
          exists m. tauto.
        + apply Hms. exact Ea. }
    constructor; [exact Hs|].
    apply (IH (Some s) ms out'); [|exact E].
    intros s' [= <-]. exact (proj1 Hs).
Qed.

(** X12.  The rebuild never invents a mode_id: in every submitted
    configuration each entry carries the mode_id of the selected target
    or of a parsed mode flagged current (possibly of another connector),
    and every entry of the target's connector carries the target's. *)
Theorem submitted_mode_ids (svc : Service) (r : float) (st : ConfigState)
    (cfg : list NewLogicalMonitor) :
  svc_get_current_state svc = inr st ->
  In cfg (apply_calls (io_trace (set_refresh_rate svc r))) ->
  exists current target,
    find_current (parse_modes (cs_monitors st)) = Some current /\
    select_target (parse_modes (cs_monitors st)) current r = Some target /\
    Forall (fun e =>
              mode_id_provenance (parse_modes (cs_monitors st)) target
                (mc_mode_id e) /\
              (mc_connector e = connector target ->
               mc_mode_id e = mode_id target))
           (entries cfg).
Proof.
  intros Hs Hin.
  destruct (set_refresh_rate_submits _ _ _ Hin)
    as (st' & current & target & Hs' & Hc & Ht & _ & Hb).
  rewrite Hs in Hs'. injection Hs' as <-.
  exists current, target. split; [exact Hc|]. split; [exact Ht|].
  apply build_new_configuration_flat in Hb. destruct Hb as [ms Hb].
  eapply build_monitor_configs_provenance; [| |exact Hb].
  - apply select_target_Some in Ht. destruct Ht as (pre & post & -> & _).
    apply in_elt.
  - discriminate.
Qed.

Lemma submitted_mode_ids_witness :
  let cfg :=
    [{| nl_x := 0; nl_y := 0; nl_scale := 1%float; nl_transform := 0;
        nl_is_primary := true;
        nl_monitor_configs :=
          [{| mc_connector := "DP-1"; mc_mode_id := "1920x1080@240";
              mc_properties := [] |}] |};
     {| nl_x := 1920; nl_y := 0; nl_scale := 1%float; nl_transform := 0;
        nl_is_primary := false;
        nl_monitor_configs :=
          [{| mc_connector := "HDMI-1"; mc_mode_id := "1920x1080@240";
              mc_properties := [] |}] |}] in
  exists current target,
    find_current (parse_modes (cs_monitors Samples.two_displays)) = Some current /\
    select_target (parse_modes (cs_monitors Samples.two_displays)) current
      240%float = Some target /\
    Forall (fun e =>
              mode_id_provenance (parse_modes (cs_monitors Samples.two_displays))
                target (mc_mode_id e) /\
              (mc_connector e = connector target ->
               mc_mode_id e = mode_id target))
           (entries cfg).
Proof.
  intros cfg.
  apply (submitted_mode_ids (Samples.service Samples.two_displays None)
           240%float Samples.two_displays cfg eq_refl).
  vm_compute. left. reflexivity.
Defined.

(** ** More on target selection *)

Lemma not_near_nonfinite (a r : float) :
  r = nan \/ r = infinity \/ r = neg_infinity ->
  PrimFloat.ltb (PrimFloat.abs (PrimFloat.sub a r)) 1%float = false.
Proof.
  intros Hr. rewrite ltb_spec, abs_spec, sub_spec.
  destruct Hr as [-> | [-> | ->]].
  - change (Prim2SF nan) with S754_nan.
    unfold SF64sub, SFsub. destruct (Prim2SF a); reflexivity.
  - change (Prim2SF infinity) with (S754_infinity false).
    unfold SF64sub, SFsub. destruct (Prim2SF a) as [s|[|]| |s m e]; reflexivity.
  - change (Prim2SF neg_infinity) with (S754_infinity true).
    unfold SF64sub, SFsub. destruct (Prim2SF a) as [s|[|]| |s m e]; reflexivity.
Qed.

(** X13.  A request that parses to NaN or to an infinity (Python's
    [float] accepts "nan", "inf" and "-inf") matches no mode at all:
    target selection finds nothing, so with a current mode present the
    run ends in the mode-not-found report and exit code 1. *)
Theorem nonfinite_request_finds_nothing (float_of_string : string -> option float)
    (svc : Service) (arg : string) (rest : list string) (r : float)
    (st : ConfigState) (current : MonitorMode) :
  r = nan \/ r = infinity \/ r = neg_infinity ->
  (forall modes current', select_target modes current' r = None) /\
  (String.eqb arg "--list" = false ->
   String.eqb arg "--current" = false ->
   float_of_string arg = Some r ->
   svc_proxy svc = None ->
   svc_get_current_state svc = inr st ->
   find_current (parse_modes (cs_monitors st)) = Some current ->
   (run_process float_of_string svc (arg :: rest)).2 = Exited 1 /\
   apply_calls (run_process float_of_string svc (arg :: rest)).1 = []).
Proof.
  intros Hr.
  assert (Hnone : forall modes current', select_target modes current' r = None).
  { intros modes current'. apply select_target_None.
    apply Forall_forall. intros m _. unfold target_matches.
    rewrite (not_near_nonfinite (refresh m) r Hr). apply andb_false_r. }
  split; [exact Hnone|].
  intros Hl Hc Hf Hp Hs Hcur. unfold run_process.
  rewrite (main_numeric float_of_string svc arg rest r Hl Hc Hf).
  rewrite (set_refresh_rate_not_found svc r st current Hp Hs Hcur (Hnone _ _)).
  cbn [fst snd io_trace io_result]. split; [reflexivity|].
  cbn [apply_calls].
  induction (List.filter (same_resolution current) (parse_modes (cs_monitors st)))
    as [|m l IH]; [reflexivity|exact IH].
Qed.

Lemma nonfinite_request_finds_nothing_witness :
  (run_process (fun _ => Some nan)
     (Samples.service Samples.one_display None) ["nan"]).2 = Exited 1 /\
  apply_calls
    (run_process (fun _ => Some nan)
       (Samples.service Samples.one_display None) ["nan"]).1 = [].
Proof.
  apply (proj2 (nonfinite_request_finds_nothing (fun _ => Some nan)
                  (Samples.service Samples.one_display None) "nan" [] nan
                  Samples.one_display
                  (mode_entry "DP-1"
                     (Samples.mode_info "1920x1080@60" 1920 1080 60%float
                        Samples.current_props))
                  (or_introl eq_refl)));
    reflexivity.
Defined.

(** X14.  Target selection reads only the width, height and refresh rate
    of the listed modes: relabelling them in any way that keeps those
    three fields (other connectors, mode ids, flags) relabels the result
    and nothing else.  In particular the target may belong to another
    connector than the current mode. *)
Theorem select_target_reads_geometry_only (f : MonitorMode -> MonitorMode)
    (modes : list MonitorMode) (current : MonitorMode) (r : float) :
  (forall m, width (f m) = width m /\ height (f m) = height m /\
             refresh (f m) = refresh m) ->
  select_target (map f modes) current r = f <$> select_target modes current r.
Proof.
  intros Hf. induction modes as [|m rest IH]; [reflexivity|].
  cbn [map select_target]. rewrite IH.
  assert (E : target_matches current r (f m) = target_matches current r m).
  { unfold target_matches. destruct (Hf m) as (-> & -> & ->). reflexivity. }
  rewrite E. destruct (target_matches current r m); reflexivity.
Qed.

Lemma select_target_reads_geometry_only_witness :
  let relabel m :=
    {| connector := "HDMI-1"; mode_id := mode_id m; width := width m;
       height := height m; refresh := refresh m; scale := scale m;
       scales := scales m; is_current := PBool false;
       is_preferred := is_preferred m; props := props m |} in
  let current := mode_entry "DP-1"
    (Samples.mode_info "1920x1080@60" 1920 1080 60%float Samples.current_props) in
  connector <$>
    select_target (map relabel (parse_modes (cs_monitors Samples.one_display)))
      current 240%float = Some "HDMI-1".
Proof.
  intros relabel current.
  rewrite (select_target_reads_geometry_only relabel).
  - reflexivity.
  - intros m. repeat split; reflexivity.
Defined.

(** ** More on mode parsing *)

Lemma dict_get_absent (d : pydict) k default :
  ~ In k (map fst d) -> dict_get d k default = default.
Proof.
  induction d as [|[k' v] d IH]; simpl; [reflexivity|].
  intros H. destruct (String.eqb_spec k' k) as [->|Hne].
  - exfalso. apply H. left. reflexivity.
  - apply IH. intros Hin. apply H. right. exact Hin.
Qed.

Lemma dict_get_present (d : pydict) k v default :
  List.NoDup (map fst d) -> In (k, v) d -> dict_get d k default = v.
Proof.
  induction d as [|[k' v'] d IH]; simpl; [intros _ []|].
  intros Hnd [[= -> ->]|Hin].
  - rewrite String.eqb_refl. reflexivity.
  - inversion Hnd as [|? ? Hnotin Hnd']; subst.
    destruct (String.eqb_spec k' k) as [->|Hne].
    + exfalso. apply Hnotin. apply (in_map fst) in Hin. exact Hin.
    + apply IH; assumption.
Qed.

(** X15.  The flags of a parsed mode come from its property map: with
    keys that are unique, [is_current] and [is_preferred] are the values
    bound to "is-current" and "is-preferred"; a mode whose map lacks the
    key gets [False], so that it is never taken for the current mode. *)
Theorem mode_flags_from_properties (connector0 : string) (mode : ModeInfo) :
  (forall v, List.NoDup (map fst (mi_mode_props mode)) ->
             In ("is-current", v) (mi_mode_props mode) ->
             is_current (mode_entry connector0 mode) = v) /\
  (forall v, List.NoDup (map fst (mi_mode_props mode)) ->
             In ("is-preferred", v) (mi_mode_props mode) ->
             is_preferred (mode_entry connector0 mode) = v) /\
  (~ In "is-current" (map fst (mi_mode_props mode)) ->
   is_current (mode_entry connector0 mode) = PBool false /\
   forall modes, find_current modes <> Some (mode_entry connector0 mode)) /\
  (~ In "is-preferred" (map fst (mi_mode_props mode)) ->
   is_preferred (mode_entry connector0 mode) = PBool false).
Proof.
  split; [|split; [|split]].
  - intros v Hnd Hin. apply dict_get_present; assumption.
  - intros v Hnd Hin. apply dict_get_present; assumption.
  - intros Habs.
    assert (E : is_current (mode_entry connector0 mode) = PBool false)
      by (apply dict_get_absent; exact Habs).
    split; [exact E|]. intros modes Hf.
    apply find_current_Some in Hf. destruct Hf as (pre & post & _ & Hm & _).
    rewrite E in Hm. discriminate Hm.
  - intros Habs. apply dict_get_absent. exact Habs.
Qed.

Lemma mode_flags_from_properties_witness :
  let mode := Samples.mode_info "1920x1080@240" 1920 1080 240%float
                [("is-preferred", PBool true)] in
  is_preferred (mode_entry "DP-1" mode) = PBool true /\
  is_current (mode_entry "DP-1" mode) = PBool false.
Proof.
  intros mode.
  destruct (mode_flags_from_properties "DP-1" mode) as (_ & Hpref & Hcur & _).
  split.
  - apply Hpref.
    + repeat constructor. intros [].
    + left. reflexivity.
  - apply Hcur. intros [H|[]]. discriminate H.
Defined.

Lemma Dyn_py_iter_raises v e :
  Dyn.py_iter v = Raise e -> e = TypeError.
Proof. destruct v; simpl; intros H; try discriminate H; congruence. Qed.

Ltac unpack_raises :=
  let items := fresh "items" in
  let E := fresh "E" in
  let H := fresh "H" in
  match goal with
  | |- context [Dyn.py_iter ?v] =>
      destruct (Dyn.py_iter v) as [items|?] eqn:E; cbn [mbind result_bind];
      [ do 8 (try destruct items as [|? items]);
        intros H; try discriminate H; injection H as <-; left; reflexivity
      | intros H; injection H as <-; right; left;
        exact (Dyn_py_iter_raises _ _ E) ]
  end.

Lemma Dyn_unpack3_raises v e :
  Dyn.unpack3 v = Raise e ->
  e = ValueError \/ e = TypeError \/ e = AttributeError.
Proof. unfold Dyn.unpack3. unpack_raises. Qed.

Lemma Dyn_unpack4_raises v e :
  Dyn.unpack4 v = Raise e ->
  e = ValueError \/ e = TypeError \/ e = AttributeError.
Proof. unfold Dyn.unpack4. unpack_raises. Qed.

Lemma Dyn_unpack7_raises v e :
  Dyn.unpack7 v = Raise e ->
  e = ValueError \/ e = TypeError \/ e = AttributeError.
Proof. unfold Dyn.unpack7. unpack_raises. Qed.

Lemma Dyn_py_get_raises v k default e :
  Dyn.py_get v k default = Raise e -> e = AttributeError.
Proof. destruct v; simpl; intros H; try discriminate H; congruence. Qed.

Lemma Dyn_parse_mode_raises connector0 mode e :
  Dyn.parse_mode connector0 mode = Raise e ->
  e = ValueError \/ e = TypeError \/ e = AttributeError.
Proof.
  unfold Dyn.parse_mode.
  destruct (Dyn.unpack7 mode) as [[[[[[[a b] c] d] f] g] mode_props]|e'] eqn:E;
    cbn [mbind result_bind].
  - destruct (Dyn.py_get mode_props "is-current" (PBool false)) as [x|e1] eqn:E1;
      cbn [mbind result_bind].
    + destruct (Dyn.py_get mode_props "is-preferred" (PBool false)) as [y|e2] eqn:E2;
        cbn [mbind result_bind]; [discriminate|].
      intros [= <-]. right. right. exact (Dyn_py_get_raises _ _ _ _ E2).
    + intros [= <-]. right. right. exact (Dyn_py_get_raises _ _ _ _ E1).
  - intros [= <-]. exact (Dyn_unpack7_raises _ _ E).
Qed.

Lemma Dyn_parse_mode_list_raises connector0 items modes e :
  Dyn.parse_mode_list connector0 items modes = Raise e ->
  e = ValueError \/ e = TypeError \/ e = AttributeError.
Proof.
  revert modes. induction items as [|mode rest IH]; intros modes; [discriminate|].
  cbn [Dyn.parse_mode_list].
  destruct (Dyn.parse_mode connector0 mode) as [d|e'] eqn:E;
    cbn [mbind result_bind].
  - apply IH.
  - intros [= <-]. exact (Dyn_parse_mode_raises _ _ _ E).
Qed.

(** The outcome of the inner loop does not depend on what has been
    collected so far, only the collected list does. *)
Lemma Dyn_parse_mode_list_acc connector0 items modes :
  Dyn.parse_mode_list connector0 items modes =
  app modes <$> Dyn.parse_mode_list connector0 items [].
Proof.
  revert modes. induction items as [|mode rest IH]; intros modes.
  - cbn. rewrite app_nil_r. reflexivity.
  - cbn [Dyn.parse_mode_list].
    destruct (Dyn.parse_mode connector0 mode) as [d|e'];
      cbn [mbind result_bind fmap result_fmap]; [|reflexivity].
    rewrite IH, (IH ([] ++ [d])).
    destruct (Dyn.parse_mode_list connector0 rest []) as [out|e'];
      cbn [fmap result_fmap]; [|reflexivity].
    rewrite <- app_assoc. reflexivity.
Qed.

Lemma Dyn_parse_monitors_raises monitors modes e :
  Dyn.parse_monitors monitors modes = Raise e ->
  e = ValueError \/ e = TypeError \/ e = AttributeError.
Proof.
  revert modes. induction monitors as [|monitor rest IH]; intros modes;
    [discriminate|].
  cbn [Dyn.parse_monitors].
  destruct (Dyn.unpack3 monitor) as [[[ci ml] p]|e'] eqn:E3;
    cbn [mbind result_bind];
    [|intros [= <-]; exact (Dyn_unpack3_raises _ _ E3)].
  destruct (Dyn.unpack4 ci) as [[[[c v] pr] sn]|e'] eqn:E4;
    cbn [mbind result_bind];
    [|intros [= <-]; exact (Dyn_unpack4_raises _ _ E4)].
  destruct (Dyn.py_iter ml) as [items|e'] eqn:Ei; cbn [mbind result_bind];
    [|intros [= <-]; right; left; exact (Dyn_py_iter_raises _ _ Ei)].
  destruct (Dyn.parse_mode_list c items modes) as [modes'|e'] eqn:El;
    cbn [mbind result_bind];
    [apply IH|intros [= <-]; exact (Dyn_parse_mode_list_raises _ _ _ _ El)].
Qed.

(** X16.  On every argument made of None, booleans, integers, floats,
    strings, tuples, lists and dicts with string keys (the values that
    unpacking a reply yields), mode parsing raises nothing but ValueError
    (an unpacking of the wrong length), TypeError (a value that cannot
    be iterated) or AttributeError (a property map without [get]). *)
Theorem Dyn_parse_modes_error_kinds (monitors : pyval) (e : exn) :
  Dyn.parse_modes monitors = Raise e ->
  e = ValueError \/ e = TypeError \/ e = AttributeError.
Proof.
  unfold Dyn.parse_modes.
  destruct (Dyn.py_iter monitors) as [items|e'] eqn:E; cbn [mbind result_bind].
  - apply Dyn_parse_monitors_raises.
  - intros [= <-]. right. left. exact (Dyn_py_iter_raises _ _ E).
Qed.

Lemma Dyn_parse_modes_error_kinds_witness :
  Dyn.parse_modes (PInt 3) = Raise TypeError /\
  (TypeError = ValueError \/ TypeError = TypeError \/ TypeError = AttributeError).
Proof.
  split; [reflexivity|].
  apply (Dyn_parse_modes_error_kinds (PInt 3)). reflexivity.
Defined.

Lemma Dyn_parse_monitors_prefix pre monitors modes :
  Dyn.parse_monitors (map Dyn.of_monitor pre ++ monitors) (map Dyn.of_mode modes) =
  Dyn.parse_monitors monitors (map Dyn.of_mode (parse_monitors pre modes)).
Proof.
  revert modes. induction pre as [|monitor rest IH]; intros modes; [reflexivity|].
  cbn [map app parse_monitors].
  rewrite Dyn_parse_monitors_cons, Dyn_parse_mode_list_ok.
  cbn [mbind result_bind]. apply IH.
Qed.

Lemma Dyn_parse_monitors_head_raises bad post modes e :
  Dyn.parse_monitors [bad] [] = Raise e ->
  Dyn.parse_monitors (bad :: post) modes = Raise e.
Proof.
  cbn [Dyn.parse_monitors].
  destruct (Dyn.unpack3 bad) as [[[ci ml] p]|e']; cbn [mbind result_bind];
    [|exact (fun H => H)].
  destruct (Dyn.unpack4 ci) as [[[[c v] pr] sn]|e']; cbn [mbind result_bind];
    [|exact (fun H => H)].
  destruct (Dyn.py_iter ml) as [items|e']; cbn [mbind result_bind];
    [|exact (fun H => H)].
  rewrite (Dyn_parse_mode_list_acc c items modes).
  destruct (Dyn.parse_mode_list c items []) as [out|e'];
    cbn [mbind result_bind fmap result_fmap]; [discriminate|exact (fun H => H)].
Qed.

(** X17.  Mode parsing is all or nothing: an entry that makes the parse
    raise on its own makes it raise the same exception wherever it
    stands after well-shaped monitors, whatever follows it; the modes
    collected before it are lost. *)
Theorem Dyn_parse_modes_fails_fast (pre : list Monitor) (bad : pyval)
    (post : list pyval) (e : exn) :
  Dyn.parse_modes (PList [bad]) = Raise e ->
  Dyn.parse_modes (PList (map Dyn.of_monitor pre ++ bad :: post)) = Raise e.
Proof.
  unfold Dyn.parse_modes. cbn [Dyn.py_iter mbind result_bind]. intros H.
  rewrite (Dyn_parse_monitors_prefix pre (bad :: post) []
           : Dyn.parse_monitors (map Dyn.of_monitor pre ++ bad :: post) [] = _).
  apply Dyn_parse_monitors_head_raises. exact H.
Qed.

Lemma Dyn_parse_modes_fails_fast_witness :
  Dyn.parse_modes
    (PList (map Dyn.of_monitor [Samples.dp1_monitor] ++
            PTuple [Dyn.of_connector_info Samples.hdmi1; PList []] ::
            [Dyn.of_monitor Samples.hdmi1_active])) = Raise ValueError.
Proof.
  apply (Dyn_parse_modes_fails_fast [Samples.dp1_monitor]). reflexivity.
Defined.

(** ** Selection and rebuild together *)



(** ** Strings as sequences of characters *)

(** A string of ASCII bytes has one character per byte. *)
Lemma characters_ascii (bytes : list Ascii.ascii) :
  Forall (fun c => Dyn.is_continuation c = false) bytes ->
  Dyn.characters bytes = map (fun c => String c "") bytes.
Proof.
  induction 1 as [|b rest Hb Hrest IH]; [reflexivity|].
  cbn [Dyn.characters map]. rewrite IH.
  destruct Hrest as [|c rest' Hc _]; [reflexivity|].
  cbn [map Dyn.starts_with_continuation]. rewrite Hc. reflexivity.
Qed.

(** A two-byte character (U+00E9) counts once: a connector tuple given
    as a four-character string unpacks, a three-character one does not. *)
Example unpack_counts_characters :
  let e_acute := String (Ascii.ascii_of_nat 195) (String (Ascii.ascii_of_nat 169) "") in
  Dyn.py_iter (PStr (e_acute ++ "123")) =
    Ok [PStr e_acute; PStr "1"; PStr "2"; PStr "3"] /\
  Dyn.parse_modes (PList [PTuple [PStr (e_acute ++ "123"); PList []; PDict []]])
    = Ok [] /\
  Dyn.parse_modes (PList [PTuple [PStr (e_acute ++ "12"); PList []; PDict []]])
    = Raise ValueError.
Proof. repeat split; reflexivity. Qed.

(** Three- and four-byte characters (U+20AC, U+1F600). *)
Example characters_multibyte :
  let euro := String (Ascii.ascii_of_nat 226) (String (Ascii.ascii_of_nat 130)
                (String (Ascii.ascii_of_nat 172) "")) in
  let grin := String (Ascii.ascii_of_nat 240) (String (Ascii.ascii_of_nat 159)
                (String (Ascii.ascii_of_nat 152) (String (Ascii.ascii_of_nat 128) ""))) in
  Dyn.characters (list_ascii_of_string ("a" ++ euro ++ grin ++ "b")) =
    ["a"; euro; grin; "b"].
Proof. reflexivity. Qed.
